(** * The air-Q integration: setup wizard (config_flow.py) and sensor
      platform (sensor.py)

    A shallow embedding of the two Python modules.  Python values are an
    inductive type, a dict is an association list in insertion order, a raised
    exception is the [Raise] branch of [result], and the effects the code has
    (calls to the device client, log records, the flow's unique id, the
    entities handed to the platform) are threaded through a small state and
    error monad. *)

From Stdlib Require Import Floats.PrimFloat.
From Stdlib Require Floats.SpecFloat Floats.FloatOps.
From Stdlib Require Import String Ascii List ZArith Bool Lia.
Import ListNotations.
Local Open Scope string_scope.
Set Warnings "-register-all".

(** ** Python values *)

Inductive value : Type :=
| VNone
| VBool (b : bool)
| VInt (n : Z)
| VFloat (x : PrimFloat.float)
| VStr (s : string)
| VList (l : list value)
| VDict (items : list (string * value)).

(** A [dict[str, Any]]: the items in insertion order.  Lookup takes the first
    item with the key. *)
Definition dict : Type := list (string * value).

(** ** Exceptions

    [CannotConnect] and [InvalidAuth] are the two classes config_flow.py
    declares (both derive from HomeAssistantError, hence from Exception).
    [Foreign cls derives] is an instance of a class [cls] declared outside the
    integration (the device client, its HTTP library, asyncio); [derives] tells
    whether that class derives from [Exception] or from [BaseException] only,
    as asyncio.CancelledError and KeyboardInterrupt do. *)
Inductive exn : Type :=
| CannotConnect
| InvalidAuth
| KeyError (key : string)
| TypeError (msg : string)
| OverflowError (msg : string)
| ZeroDivisionError (msg : string)
| AbortFlow (reason : string)
| Foreign (cls : string) (derives_from_Exception : bool).

(** [isinstance(e, CannotConnect)], the test of [except CannotConnect]. *)
Definition is_CannotConnect (e : exn) : bool :=
  match e with CannotConnect => true | _ => false end.

(** [isinstance(e, InvalidAuth)]. *)
Definition is_InvalidAuth (e : exn) : bool :=
  match e with InvalidAuth => true | _ => false end.

(** [isinstance(e, Exception)], the test of [except Exception]. *)
Definition is_Exception (e : exn) : bool :=
  match e with
  | Foreign _ derives => derives
  | _ => true
  end.

Inductive result (A : Type) : Type :=
| Ok (a : A)
| Raise (e : exn).
Arguments Ok {A} a.
Arguments Raise {A} e.

(** ** State and error monad: a computation reads and updates a state [S] and
    returns or raises; the state reached when it raises is kept. *)
Definition M (S A : Type) : Type := S -> result A * S.

Definition ret {S A} (a : A) : M S A := fun s => (Ok a, s).

Definition raise {S A} (e : exn) : M S A := fun s => (Raise e, s).

Definition bind {S A B} (m : M S A) (k : A -> M S B) : M S B :=
  fun s =>
    match m s with
    | (Ok a, s') => k a s'
    | (Raise e, s') => (Raise e, s')
    end.

Definition lift {S A} (r : result A) : M S A := fun s => (r, s).

Definition modify {S} (f : S -> S) : M S unit := fun s => (Ok tt, f s).

Definition gets {S A} (f : S -> A) : M S A := fun s => (Ok (f s), s).

(** [try: body / except ...: handler / else: orelse].  [handler e] is [None]
    when no except clause matches [e], which then propagates. *)
Definition try_except {S A B} (body : M S A)
    (handler : exn -> option (M S B)) (orelse : A -> M S B) : M S B :=
  fun s =>
    match body s with
    | (Ok a, s') => orelse a s'
    | (Raise e, s') =>
        match handler e with
        | Some h => h s'
        | None => (Raise e, s')
        end
    end.

Notation "x <- m ;; k" := (bind m (fun x => k))
  (at level 61, m at next level, right associativity).
Notation "m ;;; k" := (bind m (fun _ => k))
  (at level 61, right associativity).

(** ** Operations on values *)

(** [d.get(k)] *)
Fixpoint dict_get (d : dict) (k : string) : option value :=
  match d with
  | [] => None
  | (k', v) :: rest => if String.eqb k k' then Some v else dict_get rest k
  end.

(** [d[k]] on a dict: KeyError when the key is missing. *)
Definition getitem (d : dict) (k : string) : result value :=
  match dict_get d k with
  | Some v => Ok v
  | None => Raise (KeyError k)
  end.

(** [list(d.keys())] *)
Definition keys (d : dict) : list string := map fst d.

(** [type(v).__name__] *)
Definition type_name (v : value) : string :=
  match v with
  | VNone => "NoneType"
  | VBool _ => "bool"
  | VInt _ => "int"
  | VFloat _ => "float"
  | VStr _ => "str"
  | VList _ => "list"
  | VDict _ => "dict"
  end.

(** [v[k]] for a string subscript [k] on any value. *)
Definition subscript (v : value) (k : string) : result value :=
  match v with
  | VDict items => getitem items k
  | VStr _ => Raise (TypeError "string indices must be integers")
  | VList _ => Raise (TypeError "list indices must be integers or slices, not str")
  | _ => Raise (TypeError ("'" ++ type_name v ++ "' object is not subscriptable"))
  end.

(** [needle in s] for two strings: [needle] occurs in [s]. *)
Fixpoint str_in (needle s : string) : bool :=
  String.prefix needle s
  || match s with
     | EmptyString => false
     | String _ s' => str_in needle s'
     end.

(** [needle in v] for a string [needle] and any value [v]: substring of a
    string, element of a list, key of a dict, TypeError on the rest. *)
Definition contains (needle : string) (v : value) : result bool :=
  match v with
  | VStr s => Ok (str_in needle s)
  | VList l =>
      Ok (existsb (fun x => match x with VStr t => String.eqb needle t | _ => false end) l)
  | VDict items => Ok (existsb (fun kv => String.eqb needle (fst kv)) items)
  | _ => Raise (TypeError ("argument of type '" ++ type_name v ++ "' is not iterable"))
  end.

(** [float(n)] for an int: rounded to the nearest binary64, OverflowError when
    that is out of range. *)
Definition float_of_int (n : Z) : result PrimFloat.float :=
  match SpecFloat.binary_normalize 53 1024 n 0 false with
  | SpecFloat.S754_infinity _ => Raise (OverflowError "int too large to convert to float")
  | x => Ok (FloatOps.SF2Prim x)
  end.

(** [v / d] for a float divisor [d]. *)
Definition truediv_float (v : value) (d : PrimFloat.float) : result value :=
  let divide (x : PrimFloat.float) : result value :=
    if PrimFloat.eqb d PrimFloat.zero
    then Raise (ZeroDivisionError "float division by zero")
    else Ok (VFloat (PrimFloat.div x d)) in
  match v with
  | VFloat x => divide x
  | VInt n =>
      match float_of_int n with
      | Ok x => divide x
      | Raise e => Raise e
      end
  | VBool b => divide (if b then PrimFloat.one else PrimFloat.zero)
  | _ =>
      Raise (TypeError ("unsupported operand type(s) for /: '" ++ type_name v ++ "' and 'float'"))
  end.

(** [", ".join(l)] *)
Definition join (sep : string) (l : list string) : string := String.concat sep l.

(** ** What the two modules import and this development does not define *)

(** const.py of the integration: the four names the modules import from it. *)
Class Const : Type := {
  CONF_ID : string;
  CONF_IP_ADDRESS : string;
  CONF_SECRET : string;
  DOMAIN : string
}.

(** The device client [aioairq.AirQ]: what [test_authentication()] and
    [get(endpoint)] do for one client object. *)
Record AirQ : Type := {
  test_authentication : result bool;
  get : string -> result value
}.

(** The interpreter and the libraries around the integration.
    [AirQ_init address password] is the client object [AirQ(address, password)];
    [str_other v] is [str(v)] for a [v] that is not a string;
    [set_unique_id_result uid] is what the framework's [async_set_unique_id]
    does before the flow takes the id (it raises AbortFlow when another flow
    is in progress for the id);
    [unique_id_configured uid] tells whether a config entry with this unique
    id exists already. *)
Class Environment : Type := {
  AirQ_init : value -> value -> AirQ;
  str_other : value -> string;
  set_unique_id_result : value -> result unit;
  unique_id_configured : value -> bool
}.

(** The text an f-string puts for [{v}]. *)
Definition format_value `{Environment} (v : value) : string :=
  match v with
  | VStr s => s
  | _ => str_other v
  end.

(** A log record: level, message (format string) and arguments. *)
Inductive log_record : Type :=
| LogDebug (fmt : string) (args : list value)
| LogException (msg : string).

(** ** config_flow.py *)
Module config_flow.

(** A key of a voluptuous schema: [vol.Required(name): str]. *)
Record schema_key : Type := Required { schema_name : string; schema_type : string }.

(** The calls the flow makes on the device client. *)
Inductive client_call : Type :=
| Call_authenticate
| Call_get (endpoint : string).

(** What a run of the flow leaves behind: the calls made on the device
    client in order, the records written to [_LOGGER], and the flow's unique
    id. *)
Record flow : Type := {
  calls : list client_call;
  log : list log_record;
  unique_id : option value
}.

(** A flow on which nothing has happened yet. *)
Definition new_flow : flow := {| calls := []; log := []; unique_id := None |}.

Definition record_call (c : client_call) : M flow unit :=
  modify (fun f => {| calls := calls f ++ [c]; log := log f; unique_id := unique_id f |}).

(** [_LOGGER.exception(msg)] *)
Definition _LOGGER_exception (msg : string) : M flow unit :=
  modify (fun f =>
    {| calls := calls f; log := log f ++ [LogException msg]; unique_id := unique_id f |}).

(** The flow [f] after the client calls [new] were made on it. *)
Definition with_calls (f : flow) (new : list client_call) : flow :=
  {| calls := calls f ++ new; log := log f; unique_id := unique_id f |}.

(** The flow [f] after [_LOGGER.exception(msg)]. *)
Definition logged (f : flow) (msg : string) : flow :=
  {| calls := calls f; log := log f ++ [LogException msg]; unique_id := unique_id f |}.

(** The flow [f] after it took the unique id [uid]. *)
Definition identified (f : flow) (uid : value) : flow :=
  {| calls := calls f; log := log f; unique_id := Some uid |}.

(** What [async_step_user] returns to the framework. *)
Inductive FlowResult : Type :=
| Form (step_id : string) (data_schema : list schema_key)
       (errors : option (list (string * string)))
| CreateEntry (title : value) (data : dict).

Section Flow.
Context `{Const} `{Environment}.

Definition STEP_USER_DATA_SCHEMA : list schema_key :=
  [ Required CONF_IP_ADDRESS "str"; Required CONF_SECRET "str" ].

(** class PlaceholderHub *)
Record PlaceholderHub : Type := { airq : AirQ }.

Definition PlaceholderHub_init (address password : value) : PlaceholderHub :=
  {| airq := AirQ_init address password |}.

(** [await hub.authenticate()] *)
Definition authenticate (self : PlaceholderHub) : M flow bool :=
  record_call Call_authenticate ;;;
  lift (test_authentication (airq self)).

(** [await airq.get(endpoint)] *)
Definition airq_get (client : AirQ) (endpoint : string) : M flow value :=
  record_call (Call_get endpoint) ;;;
  lift (get client endpoint).

Definition validate_input (data : dict) : M flow dict :=
  address <- lift (getitem data CONF_IP_ADDRESS) ;;
  secret <- lift (getitem data CONF_SECRET) ;;
  let hub := PlaceholderHub_init address secret in
  authenticated <- authenticate hub ;;
  if negb authenticated then raise InvalidAuth
  else
    config <- airq_get (airq hub) "config" ;;
    devicename <- lift (subscript config "devicename") ;;
    id <- lift (subscript config "id") ;;
    ret [ ("title", VStr ("Air-Q " ++ format_value devicename)); ("id", id) ].

(** [self.async_show_form(step_id=..., data_schema=..., errors=...)] *)
Definition async_show_form (step_id : string) (data_schema : list schema_key)
    (errors : option (list (string * string))) : FlowResult :=
  Form step_id data_schema errors.

(** [self.async_create_entry(title=..., data=...)] *)
Definition async_create_entry (title : value) (data : dict) : FlowResult :=
  CreateEntry title data.

(** [await self.async_set_unique_id(uid)]: the framework may abort, and the
    flow takes the id only when it did not. *)
Definition async_set_unique_id (uid : value) : M flow unit :=
  lift (set_unique_id_result uid) ;;;
  modify (fun f => {| calls := calls f; log := log f; unique_id := Some uid |}).

(** [self._abort_if_unique_id_configured()] *)
Definition _abort_if_unique_id_configured : M flow unit :=
  uid <- gets unique_id ;;
  match uid with
  | None => ret tt
  | Some u =>
      if unique_id_configured u then raise (AbortFlow "already_configured") else ret tt
  end.

(** [errors[k] = v] on the dict of form errors. *)
Definition set_error (errors : list (string * string)) (k v : string)
    : list (string * string) :=
  filter (fun kv => negb (String.eqb (fst kv) k)) errors ++ [(k, v)].

(** ConfigFlow.async_step_user.  The try statement yields either the value
    the else clause returns or the errors an except clause has set. *)
Definition async_step_user (user_input : option dict) : M flow FlowResult :=
  match user_input with
  | None => ret (async_show_form "user" STEP_USER_DATA_SCHEMA None)
  | Some user_input =>
      let errors : list (string * string) := [] in
      outcome <-
        try_except (validate_input user_input)
          (fun e =>
             if is_CannotConnect e then
               Some (ret (inr (set_error errors "base" "cannot_connect")))
             else if is_InvalidAuth e then
               Some (ret (inr (set_error errors "base" "invalid_auth")))
             else if is_Exception e then
               Some (_LOGGER_exception "Unexpected exception" ;;;
                     ret (inr (set_error errors "base" "unknown")))
             else None)
          (fun info =>
             uid <- lift (getitem info CONF_ID) ;;
             async_set_unique_id uid ;;;
             _abort_if_unique_id_configured ;;;
             title <- lift (getitem info "title") ;;
             ret (inl (async_create_entry title user_input))) ;;
      match outcome with
      | inl returned => ret returned
      | inr errors => ret (async_show_form "user" STEP_USER_DATA_SCHEMA (Some errors))
      end
  end.

(** The form shown again with one error code under "base". *)
Definition form_with_error (code : string) : FlowResult :=
  Form "user" STEP_USER_DATA_SCHEMA (Some [ ("base", code) ]).

End Flow.

End config_flow.

(** ** sensor.py *)
Module sensor.

(** The units of measurement the catalog names (homeassistant.const and the
    integration's const.py). *)
Inductive unit_of_measurement : Type :=
| CONCENTRATION_MICROGRAMS_PER_CUBIC_METER
| CONCENTRATION_MILLIGRAMS_PER_CUBIC_METER
| CONCENTRATION_PARTS_PER_BILLION
| CONCENTRATION_PARTS_PER_MILLION
| PERCENTAGE
| PRESSURE_HPA
| SOUND_PRESSURE_WEIGHTED_DBA
| TEMP_CELSIUS
| ACTIVITY_BECQUEREL_PER_CUBIC_METER
| CONCENTRATION_GRAMS_PER_CUBIC_METER.

(** The members of SensorDeviceClass the catalog names. *)
Inductive SensorDeviceClass : Type :=
| CO | CO2 | HUMIDITY | NITROUS_OXIDE | NITROGEN_MONOXIDE | NITROGEN_DIOXIDE
| OZONE | PM1 | PM25 | PM10 | PRESSURE | SULPHUR_DIOXIDE | TEMPERATURE
| VOLATILE_ORGANIC_COMPOUNDS.

Inductive SensorStateClass : Type := MEASUREMENT.

(** class AirQEntityDescription(SensorEntityDescription) *)
Record AirQEntityDescription : Type := {
  key : string;
  name : string;
  device_class : option SensorDeviceClass;
  native_unit_of_measurement : option unit_of_measurement;
  state_class : option SensorStateClass;
  icon : option string;
  value_transform_fn : value -> result value
}.

(** The default of [value_transform_fn]: [lambda x: x]. *)
Definition expose_as_is (x : value) : result value := Ok x.

(** Convert index units to percent: [index_value / 10.0]. *)
Definition _index2percent (index_value : value) : result value :=
  truediv_float index_value 10%float.

(** An entry with the defaults of the dataclass for the fields the catalog
    leaves out. *)
Definition description (key name : string) (device_class : option SensorDeviceClass)
    (unit : unit_of_measurement) (icon : option string)
    (value_transform_fn : value -> result value) : AirQEntityDescription :=
  {| key := key;
     name := name;
     device_class := device_class;
     native_unit_of_measurement := Some unit;
     state_class := Some MEASUREMENT;
     icon := icon;
     value_transform_fn := value_transform_fn |}.

(** Keys must match those in the data dictionary. *)
Definition SENSOR_TYPES : list AirQEntityDescription :=
  [ description "nh3_MR100" "Ammonia" None CONCENTRATION_MICROGRAMS_PER_CUBIC_METER None expose_as_is;
    description "cl2_M20" "Chlorine" None CONCENTRATION_MICROGRAMS_PER_CUBIC_METER None expose_as_is;
    description "co" "CO" (Some CO) CONCENTRATION_MILLIGRAMS_PER_CUBIC_METER None expose_as_is;
    description "co2" "CO2" (Some CO2) CONCENTRATION_PARTS_PER_MILLION None expose_as_is;
    description "dewpt" "Dew point" None TEMP_CELSIUS (Some "mdi:water-thermometer") expose_as_is;
    description "ethanol" "Ethanol" None CONCENTRATION_MICROGRAMS_PER_CUBIC_METER None expose_as_is;
    description "ch2o_M10" "Formaldehyde" None CONCENTRATION_MICROGRAMS_PER_CUBIC_METER None expose_as_is;
    description "h2s" "H2S" None CONCENTRATION_MICROGRAMS_PER_CUBIC_METER None expose_as_is;
    description "health" "Health Index" None PERCENTAGE (Some "mdi:heart-pulse") _index2percent;
    description "humidity" "Humidity" (Some HUMIDITY) PERCENTAGE None expose_as_is;
    description "humidity_abs" "Absolute humidity" None CONCENTRATION_GRAMS_PER_CUBIC_METER (Some "mdi:water") expose_as_is;
    description "h2_M1000" "Hydrogen" None CONCENTRATION_MICROGRAMS_PER_CUBIC_METER None expose_as_is;
    description "ch4_MIPEX" "Methane" None PERCENTAGE None expose_as_is;
    description "n2o" "N2O" (Some NITROUS_OXIDE) CONCENTRATION_MICROGRAMS_PER_CUBIC_METER None expose_as_is;
    description "no_M250" "NO" (Some NITROGEN_MONOXIDE) CONCENTRATION_MICROGRAMS_PER_CUBIC_METER None expose_as_is;
    description "no2" "NO2" (Some NITROGEN_DIOXIDE) CONCENTRATION_MICROGRAMS_PER_CUBIC_METER None expose_as_is;
    description "o3" "Ozone" (Some OZONE) CONCENTRATION_MICROGRAMS_PER_CUBIC_METER None expose_as_is;
    description "oxygen" "Oxygen" None PERCENTAGE (Some "mdi:leaf") expose_as_is;
    description "performance" "Performance Index" None PERCENTAGE (Some "mdi:head-check") _index2percent;
    description "pm1" "PM1" (Some PM1) CONCENTRATION_MICROGRAMS_PER_CUBIC_METER (Some "mdi:dots-hexagon") expose_as_is;
    description "pm2_5" "PM2.5" (Some PM25) CONCENTRATION_MICROGRAMS_PER_CUBIC_METER (Some "mdi:dots-hexagon") expose_as_is;
    description "pm10" "PM10" (Some PM10) CONCENTRATION_MICROGRAMS_PER_CUBIC_METER (Some "mdi:dots-hexagon") expose_as_is;
    description "pressure" "Pressure" (Some PRESSURE) PRESSURE_HPA None expose_as_is;
    description "pressure_rel" "Relative pressure" None PRESSURE_HPA (Some "mdi:gauge") expose_as_is;
    description "c3h8_MIPEX" "Propane" None PERCENTAGE None expose_as_is;
    description "so2" "SO2" (Some SULPHUR_DIOXIDE) CONCENTRATION_MICROGRAMS_PER_CUBIC_METER None expose_as_is;
    description "sound" "Noise" None SOUND_PRESSURE_WEIGHTED_DBA (Some "mdi:ear-hearing") expose_as_is;
    description "sound_max" "Noise (Maximum)" None SOUND_PRESSURE_WEIGHTED_DBA (Some "mdi:ear-hearing") expose_as_is;
    description "radon" "Radon" None ACTIVITY_BECQUEREL_PER_CUBIC_METER (Some "mdi:radioactive") expose_as_is;
    description "temperature" "Temperature" (Some TEMPERATURE) TEMP_CELSIUS None expose_as_is;
    description "tvoc" "VOC" (Some VOLATILE_ORGANIC_COMPOUNDS) CONCENTRATION_PARTS_PER_BILLION None expose_as_is;
    description "tvoc_ionsc" "VOC (Industrial)" (Some VOLATILE_ORGANIC_COMPOUNDS) CONCENTRATION_PARTS_PER_BILLION None expose_as_is ].

(** The coordinator object of one config entry (class AirQCoordinator of the
    integration's __init__.py): the attributes sensor.py reads.  [data] is the
    last response polled from the device. *)
Record AirQCoordinator : Type := {
  data : dict;
  device_id : value;
  device_info : value
}.

(** A reference to a coordinator object.  The entities of an entry and the
    framework share the object; the framework replaces its [data] on each
    poll. *)
Definition coordinator_ref : Type := nat.

(** [hass]: the objects the references stand for now, and [hass.data], which
    maps a domain to a mapping from entry id to coordinator. *)
Record HomeAssistant : Type := {
  objects : coordinator_ref -> AirQCoordinator;
  hass_data : list (string * list (string * coordinator_ref))
}.

Record ConfigEntry : Type := { entry_id : string }.

(** class AirQSensor(CoordinatorEntity, SensorEntity) *)
Record AirQSensor : Type := {
  coordinator : coordinator_ref;
  entity_description : AirQEntityDescription;
  _attr_device_info : value;
  _attr_name : string;
  _attr_unique_id : string
}.

(** What the platform setup leaves behind: the entities handed to
    [async_add_entities] and the records written to [_LOGGER]. *)
Record platform : Type := {
  entities : list AirQSensor;
  log : list log_record
}.

Definition new_platform : platform := {| entities := []; log := [] |}.

(** [_LOGGER.debug(fmt, *args)] *)
Definition _LOGGER_debug (fmt : string) (args : list value) : M platform unit :=
  modify (fun p => {| entities := entities p; log := log p ++ [LogDebug fmt args] |}).

(** [async_add_entities(new)] *)
Definition async_add_entities (new : list AirQSensor) : M platform unit :=
  modify (fun p => {| entities := entities p ++ new; log := log p |}).

(** [m[k]] on a mapping whose values are not [value]s. *)
Fixpoint lookup {A} (m : list (string * A)) (k : string) : result A :=
  match m with
  | [] => Raise (KeyError k)
  | (k', a) :: rest => if String.eqb k k' then Ok a else lookup rest k
  end.

(** [k in l] for a list of strings. *)
Definition in_list (k : string) (l : list string) : bool := existsb (String.eqb k) l.

(** The text looked for in a status string. *)
Definition WARM_UP : string := "sensor still in warm up phase".

(** [[k for k, v in items if "sensor still in warm up phase" in v]] *)
Fixpoint warming_up (items : list (string * value)) : result (list string) :=
  match items with
  | [] => Ok []
  | (k, v) :: rest =>
      match contains WARM_UP v with
      | Raise e => Raise e
      | Ok hit =>
          match warming_up rest with
          | Raise e => Raise e
          | Ok ks => Ok (if hit then k :: ks else ks)
          end
      end
  end.

Section Sensor.
Context `{Const} `{Environment}.

(** AirQSensor.__init__ *)
Definition AirQSensor_init (hass : HomeAssistant) (coordinator : coordinator_ref)
    (description : AirQEntityDescription) : AirQSensor :=
  let c := objects hass coordinator in
  {| coordinator := coordinator;
     entity_description := description;
     _attr_device_info := device_info c;
     _attr_name := name description;
     _attr_unique_id := format_value (device_id c) ++ "_" ++ key description |}.

(** AirQSensor.native_value, read when the shared objects are as in [hass]. *)
Definition native_value (hass : HomeAssistant) (self : AirQSensor) : result value :=
  let value_raw :=
    match dict_get (data (objects hass (coordinator self))) (key (entity_description self)) with
    | Some v => v
    | None => VNone
    end in
  value_transform_fn (entity_description self) value_raw.

Definition async_setup_entry (hass : HomeAssistant) (config : ConfigEntry) : M platform unit :=
  domain_data <- lift (lookup (hass_data hass) DOMAIN) ;;
  coordinator <- lift (lookup domain_data (entry_id config)) ;;
  let coordinator_data := data (objects hass coordinator) in
  let available_keys := keys coordinator_data in
  (* Add sensors under warmup *)
  status <- lift (getitem coordinator_data "Status") ;;
  available_keys <-
    match status with
    | VDict items =>
        warming_up_sensors <- lift (warming_up items) ;;
        _LOGGER_debug "Following %d sensors are warming up: %s"
          [ VInt (Z.of_nat (length warming_up_sensors));
            VStr (join ", " warming_up_sensors) ] ;;;
        ret (available_keys ++ warming_up_sensors)%list
    | _ => ret available_keys
    end ;;
  (* Filter out non-sensor keys *)
  let available_sensors :=
    filter (fun description => in_list (key description) available_keys) SENSOR_TYPES in
  _LOGGER_debug "Identified %d available sensors: %s"
    [ VInt (Z.of_nat (length available_sensors));
      VStr (join ", " (map key available_sensors)) ] ;;;
  let entities := map (AirQSensor_init hass coordinator) available_sensors in
  async_add_entities entities.

(** The catalog entries whose key is among [available_keys]. *)
Definition available_sensors (available_keys : list string) : list AirQEntityDescription :=
  filter (fun description => in_list (key description) available_keys) SENSOR_TYPES.

(** The platform [p] once the entities for [available_keys] were logged and
    handed over. *)
Definition set_up (hass : HomeAssistant) (coordinator : coordinator_ref)
    (available_keys : list string) (p : platform) : platform :=
  {| entities :=
       entities p ++ map (AirQSensor_init hass coordinator) (available_sensors available_keys);
     log :=
       log p ++
       [ LogDebug "Identified %d available sensors: %s"
           [ VInt (Z.of_nat (length (available_sensors available_keys)));
             VStr (join ", " (map key (available_sensors available_keys))) ] ] |}.

(** The platform [p] once the warming-up sensors were logged. *)
Definition warm_up_logged (warming_up_sensors : list string) (p : platform) : platform :=
  {| entities := entities p;
     log :=
       log p ++
       [ LogDebug "Following %d sensors are warming up: %s"
           [ VInt (Z.of_nat (length warming_up_sensors));
             VStr (join ", " warming_up_sensors) ] ] |}.

End Sensor.

(** The response lists [k] under "Status" with a status that contains the
    warm-up text. *)
Definition warming_up_in (response : dict) (k : string) : Prop :=
  exists items v,
    dict_get response "Status" = Some (VDict items) /\
    In (k, v) items /\
    contains WARM_UP v = Ok true.

(** The strings of a list are pairwise distinct. *)
Fixpoint distinct (l : list string) : bool :=
  match l with
  | [] => true
  | k :: rest => negb (in_list k rest) && distinct rest
  end.

End sensor.

(** ** Concrete surroundings used to run the definitions *)

Definition example_const : Const :=
  {| CONF_ID := "id";
     CONF_IP_ADDRESS := "ip_address";
     CONF_SECRET := "secret";
     DOMAIN := "airq" |}.

(** Surroundings in which every address and password reach the same client
    and no flow or entry exists for any unique id. *)
Definition environment_with (client : AirQ) : Environment :=
  {| AirQ_init := fun _ _ => client;
     str_other := fun v => "<" ++ type_name v ++ ">";
     set_unique_id_result := fun _ => Ok tt;
     unique_id_configured := fun _ => false |}.

(** A device that accepts the password and reports its configuration. *)
Definition reachable_device : AirQ :=
  {| test_authentication := Ok true;
     get := fun endpoint =>
       if String.eqb endpoint "config"
       then Ok (VDict [ ("devicename", VStr "Living room"); ("id", VStr "a1b2c3") ])
       else Raise (Foreign "ClientResponseError" true) |}.

(** A device that rejects the password. *)
Definition rejecting_device : AirQ :=
  {| test_authentication := Ok false;
     get := fun _ => Raise (Foreign "UnicodeDecodeError" true) |}.

(** No device answers at the address: the HTTP library of the client raises
    its connection error from every request. *)
Definition unreachable_device : AirQ :=
  {| test_authentication := Raise (Foreign "ClientConnectionError" true);
     get := fun _ => Raise (Foreign "ClientConnectionError" true) |}.

(** The task running the flow is cancelled while it awaits the device:
    asyncio.CancelledError derives from BaseException only. *)
Definition cancelled_request : AirQ :=
  {| test_authentication := Raise (Foreign "CancelledError" false);
     get := fun _ => Raise (Foreign "CancelledError" false) |}.

Definition example_input : dict :=
  [ ("ip_address", VStr "192.168.0.10"); ("secret", VStr "12345678") ].

(** A [hass] whose only air-Q entry, "entry1", has a coordinator holding
    [response] as its data. *)
Definition hass_with (response : dict) : sensor.HomeAssistant :=
  {| sensor.objects := fun _ =>
       {| sensor.data := response;
          sensor.device_id := VStr "a1b2c3";
          sensor.device_info := VNone |};
     sensor.hass_data := [ ("airq", [ ("entry1", 0) ]) ] |}.

Definition example_entry : sensor.ConfigEntry := {| sensor.entry_id := "entry1" |}.

(** A response in which the CO sensor is still warming up. *)
Definition co_warming_up : dict :=
  [ ("co2", VFloat 512.5);
    ("health", VInt 750);
    ("temperature", VFloat 21.5);
    ("Status", VDict [ ("co", VStr "co sensor still in warm up phase; waiting time = 18 s") ]) ].

(** The same response once the CO sensor reports. *)
Definition co_reporting : dict :=
  [ ("co2", VFloat 512.5);
    ("health", VInt 750);
    ("temperature", VFloat 21.5);
    ("co", VFloat 0.5);
    ("Status", VStr "OK") ].

(** A response in which the health index is listed as warming up. *)
Definition health_warming_up : dict :=
  [ ("co2", VFloat 512.5);
    ("Status", VDict [ ("health", VStr "sensor still in warm up phase") ]) ].

(** A response that lists a key both as a reading and as warming up. *)
Definition co_listed_twice : dict :=
  [ ("co", VFloat 0.5);
    ("Status", VDict [ ("co", VStr "co sensor still in warm up phase") ]) ].

(** The entities a setup run hands to the platform, starting from a platform
    without entities. *)
Definition created `{Const} `{Environment} (hass : sensor.HomeAssistant)
    (config : sensor.ConfigEntry) : list sensor.AirQSensor :=
  sensor.entities (snd (sensor.async_setup_entry hass config sensor.new_platform)).

(** A client double whose calls raise the integration's own CannotConnect,
    as a test of the flow would patch it. *)
Definition double_raising_CannotConnect : AirQ :=
  {| test_authentication := Raise CannotConnect;
     get := fun _ => Raise CannotConnect |}.

(** A device that accepts the password and reports a configuration without
    an "id". *)
Definition device_without_id : AirQ :=
  {| test_authentication := Ok true;
     get := fun _ => Ok (VDict [ ("devicename", VStr "Living room") ]) |}.

(** Surroundings in which a config entry exists already for every unique
    id. *)
Definition environment_configured (client : AirQ) : Environment :=
  {| AirQ_init := fun _ _ => client;
     str_other := fun v => "<" ++ type_name v ++ ">";
     set_unique_id_result := fun _ => Ok tt;
     unique_id_configured := fun _ => true |}.

(** Surroundings in which another flow is in progress for every unique
    id. *)
Definition environment_in_progress (client : AirQ) : Environment :=
  {| AirQ_init := fun _ _ => client;
     str_other := fun v => "<" ++ type_name v ++ ">";
     set_unique_id_result := fun _ => Raise (AbortFlow "already_in_progress");
     unique_id_configured := fun _ => false |}.

(** A response whose "Status" lists a number beside a warm-up text. *)
Definition status_with_number : dict :=
  [ ("co2", VFloat 512.5);
    ("Status", VDict [ ("co", VStr "co sensor still in warm up phase");
                       ("uptime", VInt 3600) ]) ].

(** [s] is a suffix of [t]. *)
Fixpoint is_suffix (s t : string) : bool :=
  String.eqb s t
  || match t with
     | EmptyString => false
     | String _ t' => is_suffix s t'
     end.

(** No key of [ks] ends in an underscore followed by another key of [ks]. *)
Definition no_key_after_underscore (ks : list string) : bool :=
  forallb (fun k1 => forallb (fun k2 => negb (is_suffix ("_" ++ k1) k2)) ks) ks.

(** * Properties of the setup wizard *)

Section FlowProperties.
Context `{Const} `{Environment}.
Import config_flow.

(** [validate_input], one step after the other. *)
Lemma validate_input_run (data : dict) (f : flow) :
  validate_input data f =
  match getitem data CONF_IP_ADDRESS with
  | Raise e => (Raise e, f)
  | Ok address =>
      match getitem data CONF_SECRET with
      | Raise e => (Raise e, f)
      | Ok secret =>
          let client := AirQ_init address secret in
          let f1 := with_calls f [ Call_authenticate ] in
          match test_authentication client with
          | Raise e => (Raise e, f1)
          | Ok false => (Raise InvalidAuth, f1)
          | Ok true =>
              let f2 := with_calls f [ Call_authenticate; Call_get "config" ] in
              match get client "config" with
              | Raise e => (Raise e, f2)
              | Ok config =>
                  match subscript config "devicename" with
                  | Raise e => (Raise e, f2)
                  | Ok devicename =>
                      match subscript config "id" with
                      | Raise e => (Raise e, f2)
                      | Ok id =>
                          (Ok [ ("title", VStr ("Air-Q " ++ format_value devicename));
                                ("id", id) ], f2)
                      end
                  end
              end
          end
      end
  end.
Proof.
  unfold validate_input, authenticate, airq_get, record_call, PlaceholderHub_init.
  unfold bind, lift, modify, raise, ret, with_calls; simpl.
  destruct (getitem data CONF_IP_ADDRESS) as [address|e]; [|reflexivity].
  destruct (getitem data CONF_SECRET) as [secret|e]; [|reflexivity].
  destruct (test_authentication (AirQ_init address secret)) as [[|]|e];
    simpl; try reflexivity.
  rewrite <- app_assoc; simpl.
  destruct (get (AirQ_init address secret) "config") as [config|e]; [|reflexivity].
  destruct (subscript config "devicename") as [devicename|e]; [|reflexivity].
  destruct (subscript config "id") as [id|e]; reflexivity.
Qed.

(** [async_step_user] on a submitted form, by the outcome of validation. *)
Lemma async_step_user_run (user_input : dict) (f : flow) :
  async_step_user (Some user_input) f =
  match validate_input user_input f with
  | (Raise e, f1) =>
      if is_CannotConnect e then (Ok (form_with_error "cannot_connect"), f1)
      else if is_InvalidAuth e then (Ok (form_with_error "invalid_auth"), f1)
      else if is_Exception e then
        (Ok (form_with_error "unknown"), logged f1 "Unexpected exception")
      else (Raise e, f1)
  | (Ok info, f1) =>
      match getitem info CONF_ID with
      | Raise e => (Raise e, f1)
      | Ok uid =>
          match set_unique_id_result uid with
          | Raise e => (Raise e, f1)
          | Ok _ =>
              let f2 := identified f1 uid in
              if unique_id_configured uid then (Raise (AbortFlow "already_configured"), f2)
              else
                match getitem info "title" with
                | Raise e => (Raise e, f2)
                | Ok title => (Ok (CreateEntry title user_input), f2)
                end
          end
      end
  end.
Proof.
  unfold async_step_user, try_except, bind at 1.
  destruct (validate_input user_input f) as [[info|e] f1].
  - unfold async_set_unique_id, _abort_if_unique_id_configured, async_create_entry.
    unfold bind, lift, modify, gets, raise, ret, identified; simpl.
    destruct (getitem info CONF_ID) as [uid|e]; [|reflexivity].
    destruct (set_unique_id_result uid) as [[]|e]; [|reflexivity].
    simpl.
    destruct (unique_id_configured uid); [reflexivity|].
    destruct (getitem info "title"); reflexivity.
  - unfold form_with_error, async_show_form, _LOGGER_exception.
    destruct (is_CannotConnect e); [reflexivity|].
    destruct (is_InvalidAuth e); [reflexivity|].
    destruct (is_Exception e); reflexivity.
Qed.

(** The client calls a validation run adds: none, the authentication alone,
    or the authentication followed by the fetch of "config". *)
Lemma validate_input_calls (data : dict) (f : flow) :
  exists new,
    snd (validate_input data f) = with_calls f new /\
    (new = [] \/ new = [ Call_authenticate ]
     \/ new = [ Call_authenticate; Call_get "config" ]).
Proof.
  rewrite validate_input_run.
  assert (f = with_calls f []) as Hf.
  { destruct f; unfold with_calls; simpl; now rewrite app_nil_r. }
  destruct (getitem data CONF_IP_ADDRESS) as [address|e]; [|exists []; auto].
  destruct (getitem data CONF_SECRET) as [secret|e]; [|exists []; auto].
  cbv zeta.
  destruct (test_authentication (AirQ_init address secret)) as [[|]|e];
    [|exists [Call_authenticate]; auto..].
  exists [Call_authenticate; Call_get "config"].
  destruct (get (AirQ_init address secret) "config") as [config|e]; [|auto].
  destruct (subscript config "devicename"); [|auto].
  destruct (subscript config "id"); auto.
Qed.

(** C3: when the client's authenticate() returns False, validation raises
    InvalidAuth after that one call, the form is shown again with the error
    code "invalid_auth", the result is no config entry, and the "config"
    endpoint is not fetched. *)
Theorem rejected_password_shows_invalid_auth
    (user_input : dict) (address secret : value) (f : flow) :
  dict_get user_input CONF_IP_ADDRESS = Some address ->
  dict_get user_input CONF_SECRET = Some secret ->
  test_authentication (AirQ_init address secret) = Ok false ->
  let f1 := with_calls f [ Call_authenticate ] in
  validate_input user_input f = (Raise InvalidAuth, f1) /\
  async_step_user (Some user_input) f = (Ok (form_with_error "invalid_auth"), f1) /\
  (forall title data,
     fst (async_step_user (Some user_input) f) <> Ok (CreateEntry title data)) /\
  (forall endpoint,
     In (Call_get endpoint) (calls (snd (async_step_user (Some user_input) f))) ->
     In (Call_get endpoint) (calls f)).
Proof.
  intros Haddress Hsecret Hauth f1.
  assert (validate_input user_input f = (Raise InvalidAuth, f1)) as Hrun.
  { rewrite validate_input_run. unfold getitem.
    rewrite Haddress, Hsecret. cbv zeta. now rewrite Hauth. }
  assert (async_step_user (Some user_input) f = (Ok (form_with_error "invalid_auth"), f1))
    as Hstep.
  { rewrite async_step_user_run, Hrun. reflexivity. }
  repeat split; trivial.
  - intros title data. rewrite Hstep. discriminate.
  - intros endpoint. rewrite Hstep. unfold f1; simpl.
    rewrite in_app_iff. intros [Hin|[Hin|[]]]; [exact Hin|discriminate].
Qed.

(** Validation raises CannotConnect only when a call on the device client
    raised that very class: no step of [validate_input] raises it. *)
Lemma CannotConnect_only_from_client (data : dict) (f f1 : flow) :
  validate_input data f = (Raise CannotConnect, f1) ->
  exists address secret,
    test_authentication (AirQ_init address secret) = Raise CannotConnect \/
    get (AirQ_init address secret) "config" = Raise CannotConnect.
Proof.
  rewrite validate_input_run. unfold getitem.
  destruct (dict_get data CONF_IP_ADDRESS) as [address|]; [|discriminate].
  destruct (dict_get data CONF_SECRET) as [secret|]; [|discriminate].
  cbv zeta. intros Hrun. exists address, secret.
  destruct (test_authentication (AirQ_init address secret)) as [[|]|e].
  - destruct (get (AirQ_init address secret) "config") as [config|e].
    + exfalso. unfold subscript, getitem in Hrun.
      destruct config; try discriminate.
      destruct (dict_get items "devicename"); [|discriminate].
      destruct (dict_get items "id"); discriminate.
    + right. congruence.
  - discriminate.
  - left. congruence.
Qed.

(** C4, as amended: an exception raised during validation that derives from
    Exception and is neither CannotConnect nor InvalidAuth does not leave
    [async_step_user]; one record is logged, the form is shown again with the
    error code "unknown", no config entry results, and the client calls made
    are those of the one validation run (nothing is tried again).  An
    exception that derives from BaseException only is not caught: it leaves
    [async_step_user] with the flow as validation left it, nothing logged. *)
Theorem unexpected_exception_shows_unknown
    (user_input : dict) (f f1 : flow) (e : exn) :
  validate_input user_input f = (Raise e, f1) ->
  is_CannotConnect e = false ->
  is_InvalidAuth e = false ->
  (is_Exception e = true ->
   async_step_user (Some user_input) f =
     (Ok (form_with_error "unknown"), logged f1 "Unexpected exception")) /\
  (is_Exception e = false ->
   async_step_user (Some user_input) f = (Raise e, f1)) /\
  (forall title data,
     fst (async_step_user (Some user_input) f) <> Ok (CreateEntry title data)) /\
  exists new,
    calls (snd (async_step_user (Some user_input) f)) = (calls f ++ new)%list /\
    (new = [] \/ new = [ Call_authenticate ]
     \/ new = [ Call_authenticate; Call_get "config" ]).
Proof.
  intros Hrun Hconnect Hauth.
  assert (async_step_user (Some user_input) f =
          if is_Exception e
          then (Ok (form_with_error "unknown"), logged f1 "Unexpected exception")
          else (Raise e, f1)) as Hstep.
  { rewrite async_step_user_run, Hrun, Hconnect, Hauth. reflexivity. }
  split; [intros He; now rewrite Hstep, He|].
  split; [intros He; now rewrite Hstep, He|].
  split.
  - intros title data. rewrite Hstep. destruct (is_Exception e); discriminate.
  - destruct (validate_input_calls user_input f) as [new [Hsnd Hnew]].
    exists new. split; [|exact Hnew].
    rewrite Hrun in Hsnd. simpl in Hsnd. rewrite Hstep, Hsnd.
    destruct (is_Exception e); reflexivity.
Qed.

(** C7: validation is a linear sequence.  Every run makes no client call,
    the authentication alone, or the authentication followed by the fetch of
    "config", and the fetch is made only when the authentication returned
    True.  When both calls succeed and the configuration has "devicename" and
    "id", the run returns the title "Air-Q " followed by the device name,
    together with the configuration's id; with CONF_ID naming the key "id",
    and when the framework's [async_set_unique_id] does not abort,
    [async_step_user] takes that id as the flow's unique id and, unless an
    entry is configured for it already, creates the entry under that
    title. *)
Theorem validation_is_linear (user_input : dict) (f : flow) :
  (exists new,
     snd (validate_input user_input f) = with_calls f new /\
     (new = [] \/ new = [ Call_authenticate ] \/
      (new = [ Call_authenticate; Call_get "config" ] /\
       exists address secret,
         dict_get user_input CONF_IP_ADDRESS = Some address /\
         dict_get user_input CONF_SECRET = Some secret /\
         test_authentication (AirQ_init address secret) = Ok true))) /\
  (forall address secret config devicename id,
     dict_get user_input CONF_IP_ADDRESS = Some address ->
     dict_get user_input CONF_SECRET = Some secret ->
     test_authentication (AirQ_init address secret) = Ok true ->
     get (AirQ_init address secret) "config" = Ok config ->
     subscript config "devicename" = Ok devicename ->
     subscript config "id" = Ok id ->
     let title := VStr ("Air-Q " ++ format_value devicename) in
     validate_input user_input f =
       (Ok [ ("title", title); ("id", id) ],
        with_calls f [ Call_authenticate; Call_get "config" ]) /\
     (CONF_ID = "id" ->
      set_unique_id_result id = Ok tt ->
      unique_id (snd (async_step_user (Some user_input) f)) = Some id /\
      (unique_id_configured id = false ->
       fst (async_step_user (Some user_input) f) = Ok (CreateEntry title user_input)))).
Proof.
  split.
  - rewrite validate_input_run. unfold getitem.
    assert (f = with_calls f []) as Hf.
    { destruct f; unfold with_calls; simpl; now rewrite app_nil_r. }
    destruct (dict_get user_input CONF_IP_ADDRESS) as [address|]; [|exists []; auto].
    destruct (dict_get user_input CONF_SECRET) as [secret|]; [|exists []; auto].
    cbv zeta.
    destruct (test_authentication (AirQ_init address secret)) as [[|]|e] eqn:Hauth;
      [|exists [Call_authenticate]; auto..].
    exists [Call_authenticate; Call_get "config"]. split.
    + destruct (get (AirQ_init address secret) "config") as [config|e]; [|reflexivity].
      destruct (subscript config "devicename"); [|reflexivity].
      destruct (subscript config "id"); reflexivity.
    + right; right. split; [reflexivity|]. now exists address, secret.
  - intros address secret config devicename id Haddress Hsecret Hauth Hget Hname Hid title.
    assert (validate_input user_input f =
            (Ok [ ("title", title); ("id", id) ],
             with_calls f [ Call_authenticate; Call_get "config" ])) as Hrun.
    { rewrite validate_input_run. unfold getitem.
      rewrite Haddress, Hsecret. cbv zeta. now rewrite Hauth, Hget, Hname, Hid. }
    split; [exact Hrun|].
    intros Hconf Hset. rewrite async_step_user_run, Hrun, Hconf.
    unfold getitem; simpl. rewrite Hset.
    split.
    + destruct (unique_id_configured id); reflexivity.
    + intros Hfree. now rewrite Hfree.
Qed.

(** C8: when the wizard ends in a created entry, the entry's data is the
    submitted user input itself, its title is the title validation derived,
    and the flow's unique id is the id validation derived. *)
Theorem created_entry_keeps_user_input
    (submitted : option dict) (f f' : flow) (title : value) (data : dict) :
  async_step_user submitted f = (Ok (CreateEntry title data), f') ->
  exists user_input info f1 uid,
    submitted = Some user_input /\
    data = user_input /\
    validate_input user_input f = (Ok info, f1) /\
    getitem info "title" = Ok title /\
    getitem info CONF_ID = Ok uid /\
    f' = identified f1 uid.
Proof.
  destruct submitted as [user_input|]; [|discriminate].
  rewrite async_step_user_run.
  destruct (validate_input user_input f) as [[info|e] f1] eqn:Hvalid.
  - destruct (getitem info CONF_ID) as [uid|e] eqn:Huid; [|discriminate].
    destruct (set_unique_id_result uid) as [[]|e]; [|discriminate].
    cbv zeta.
    destruct (unique_id_configured uid); [discriminate|].
    destruct (getitem info "title") as [t|e] eqn:Htitle; [|discriminate].
    intros Hrun. injection Hrun as Ht Hd Hf.
    exists user_input, info, f1, uid. subst. repeat split; trivial.
  - destruct (is_CannotConnect e); [discriminate|].
    destruct (is_InvalidAuth e); [discriminate|].
    destruct (is_Exception e); discriminate.
Qed.

End FlowProperties.

(** ** The wizard on concrete devices *)

Section FlowRuns.
Import config_flow.
Existing Instance example_const.

(** C1: no device answers at the submitted address, the client's request
    raises its connection error, and the form is shown again with the error
    code "unknown", not "cannot_connect": [validate_input] passes the
    client's exception on and never raises CannotConnect for it. *)
Theorem connection_failure_shown_as_unknown :
  let surroundings := environment_with unreachable_device in
  validate_input example_input new_flow =
    (Raise (Foreign "ClientConnectionError" true),
     with_calls new_flow [ Call_authenticate ]) /\
  async_step_user (Some example_input) new_flow =
    (Ok (form_with_error "unknown"),
     logged (with_calls new_flow [ Call_authenticate ]) "Unexpected exception") /\
  fst (async_step_user (Some example_input) new_flow) <>
    Ok (form_with_error "cannot_connect").
Proof.
  intros surroundings. repeat split; try reflexivity.
  vm_compute. discriminate.
Qed.

(** C4 as stated fails: an exception that derives from BaseException only
    (here the cancellation of the task awaiting the device) is neither
    CannotConnect nor InvalidAuth, and it leaves [async_step_user]. *)
Lemma cancellation_leaves_async_step_user :
  ~ (forall (surroundings : Environment) (user_input : dict) (f f1 : flow) (e : exn),
       validate_input user_input f = (Raise e, f1) ->
       is_CannotConnect e = false ->
       is_InvalidAuth e = false ->
       async_step_user (Some user_input) f =
         (Ok (form_with_error "unknown"), logged f1 "Unexpected exception")).
Proof.
  intros Hall.
  specialize (Hall (environment_with cancelled_request) example_input new_flow
                (with_calls new_flow [ Call_authenticate ])
                (Foreign "CancelledError" false) eq_refl eq_refl eq_refl).
  vm_compute in Hall. discriminate Hall.
Qed.

(** The rejected password on a concrete device. *)
Lemma rejected_password_shows_invalid_auth_witness :
  let surroundings := environment_with rejecting_device in
  (dict_get example_input CONF_IP_ADDRESS = Some (VStr "192.168.0.10") /\
   dict_get example_input CONF_SECRET = Some (VStr "12345678") /\
   test_authentication (AirQ_init (VStr "192.168.0.10") (VStr "12345678")) = Ok false) /\
  validate_input example_input new_flow =
    (Raise InvalidAuth, with_calls new_flow [ Call_authenticate ]) /\
  async_step_user (Some example_input) new_flow =
    (Ok (form_with_error "invalid_auth"), with_calls new_flow [ Call_authenticate ]).
Proof.
  intros surroundings.
  split; [repeat split|].
  pose proof (@rejected_password_shows_invalid_auth example_const surroundings
                example_input (VStr "192.168.0.10") (VStr "12345678") new_flow
                eq_refl eq_refl eq_refl) as [Hvalid [Hstep _]].
  split; [exact Hvalid|exact Hstep].
Defined.

(** The connection error of an unreachable device derives from Exception
    and is shown as "unknown"; the cancellation of the awaiting task does not
    and leaves the step. *)
Lemma unexpected_exception_shows_unknown_witness :
  let unreachable := environment_with unreachable_device in
  let cancelled := environment_with cancelled_request in
  let connection_error := Foreign "ClientConnectionError" true in
  let cancellation := Foreign "CancelledError" false in
  let f1 := with_calls new_flow [ Call_authenticate ] in
  (validate_input (H0 := unreachable) example_input new_flow =
     (Raise connection_error, f1) /\
   is_CannotConnect connection_error = false /\
   is_InvalidAuth connection_error = false /\
   is_Exception connection_error = true) /\
  async_step_user (H0 := unreachable) (Some example_input) new_flow =
    (Ok (form_with_error "unknown"), logged f1 "Unexpected exception") /\
  (validate_input (H0 := cancelled) example_input new_flow = (Raise cancellation, f1) /\
   is_CannotConnect cancellation = false /\
   is_InvalidAuth cancellation = false /\
   is_Exception cancellation = false) /\
  async_step_user (H0 := cancelled) (Some example_input) new_flow =
    (Raise cancellation, f1).
Proof.
  intros unreachable cancelled connection_error cancellation f1.
  split; [repeat split|].
  split.
  { exact (proj1 (@unexpected_exception_shows_unknown example_const unreachable
                    example_input new_flow f1 connection_error
                    eq_refl eq_refl eq_refl) eq_refl). }
  split; [repeat split|].
  exact (proj1 (proj2 (@unexpected_exception_shows_unknown example_const cancelled
                         example_input new_flow f1 cancellation
                         eq_refl eq_refl eq_refl)) eq_refl).
Defined.

(** The successful run on a concrete device. *)
Lemma validation_is_linear_witness :
  let surroundings := environment_with reachable_device in
  let config := VDict [ ("devicename", VStr "Living room"); ("id", VStr "a1b2c3") ] in
  (dict_get example_input CONF_IP_ADDRESS = Some (VStr "192.168.0.10") /\
   dict_get example_input CONF_SECRET = Some (VStr "12345678") /\
   test_authentication (AirQ_init (VStr "192.168.0.10") (VStr "12345678")) = Ok true /\
   get (AirQ_init (VStr "192.168.0.10") (VStr "12345678")) "config" = Ok config /\
   subscript config "devicename" = Ok (VStr "Living room") /\
   subscript config "id" = Ok (VStr "a1b2c3") /\
   CONF_ID = "id" /\
   set_unique_id_result (VStr "a1b2c3") = Ok tt /\
   unique_id_configured (VStr "a1b2c3") = false) /\
  validate_input example_input new_flow =
    (Ok [ ("title", VStr "Air-Q Living room"); ("id", VStr "a1b2c3") ],
     with_calls new_flow [ Call_authenticate; Call_get "config" ]) /\
  unique_id (snd (async_step_user (Some example_input) new_flow)) = Some (VStr "a1b2c3") /\
  fst (async_step_user (Some example_input) new_flow) =
    Ok (CreateEntry (VStr "Air-Q Living room") example_input).
Proof.
  intros surroundings config.
  split; [repeat split|].
  destruct (proj2 (@validation_is_linear example_const surroundings example_input new_flow)
              (VStr "192.168.0.10") (VStr "12345678") config
              (VStr "Living room") (VStr "a1b2c3")
              eq_refl eq_refl eq_refl eq_refl eq_refl eq_refl) as [Hvalid Hstep].
  destruct (Hstep eq_refl eq_refl) as [Hid Hentry].
  split; [exact Hvalid|split; [exact Hid|exact (Hentry eq_refl)]].
Defined.

(** The entry created for a concrete device. *)
Lemma created_entry_keeps_user_input_witness :
  let surroundings := environment_with reachable_device in
  let f' := identified (with_calls new_flow [ Call_authenticate; Call_get "config" ])
              (VStr "a1b2c3") in
  async_step_user (Some example_input) new_flow =
    (Ok (CreateEntry (VStr "Air-Q Living room") example_input), f') /\
  exists user_input info f1 uid,
    Some example_input = Some user_input /\
    example_input = user_input /\
    validate_input user_input new_flow = (Ok info, f1) /\
    getitem info "title" = Ok (VStr "Air-Q Living room") /\
    getitem info CONF_ID = Ok uid /\
    f' = identified f1 uid.
Proof.
  intros surroundings f'.
  split; [reflexivity|].
  exact (@created_entry_keeps_user_input example_const surroundings
           (Some example_input) new_flow f' (VStr "Air-Q Living room") example_input
           eq_refl).
Defined.

End FlowRuns.

(** * Properties of the sensor platform *)

Section SensorProperties.
Context `{Const} `{Environment}.
Import sensor.

Lemma in_list_In (k : string) (l : list string) : in_list k l = true <-> In k l.
Proof.
  unfold in_list. rewrite existsb_exists. split.
  - intros [x [Hin Heq]]. apply String.eqb_eq in Heq. now subst.
  - intros Hin. exists k. split; [exact Hin|apply String.eqb_refl].
Qed.

Lemma dict_get_keys (d : dict) (k : string) : dict_get d k <> None <-> In k (keys d).
Proof.
  induction d as [|[k' v] rest IH]; simpl.
  - split; [congruence|tauto].
  - destruct (String.eqb k k') eqn:Hk.
    + apply String.eqb_eq in Hk. subst. split; [auto|discriminate].
    + apply String.eqb_neq in Hk. rewrite IH. split; [auto|].
      intros [Heq|Hin]; [congruence|exact Hin].
Qed.

(** The comprehension keeps the keys whose status contains the warm-up text. *)
Lemma warming_up_In (items : list (string * value)) (ks : list string) (k : string) :
  warming_up items = Ok ks ->
  (In k ks <-> exists v, In (k, v) items /\ contains WARM_UP v = Ok true).
Proof.
  revert ks. induction items as [|[k' v'] rest IH]; simpl; intros ks Hks.
  - injection Hks as <-. split; [intros []|intros [v [[] _]]].
  - destruct (contains WARM_UP v') as [hit|e] eqn:Hhit; [|discriminate].
    destruct (warming_up rest) as [ks'|e]; [|discriminate].
    injection Hks as <-. specialize (IH ks' eq_refl).
    destruct hit; simpl; rewrite ?IH; split.
    + intros [<-|[v [Hin Hv]]]; [exists v'; auto|exists v; auto].
    + intros [v [[Heq|Hin] Hv]]; [left; congruence|right; exists v; auto].
    + intros [v [Hin Hv]]. exists v; auto.
    + intros [v [[Heq|Hin] Hv]]; [congruence|exists v; auto].
Qed.

(** [async_setup_entry], one step after the other. *)
Lemma async_setup_entry_run (hass : HomeAssistant) (config : ConfigEntry) (p : platform) :
  async_setup_entry hass config p =
  match lookup (hass_data hass) DOMAIN with
  | Raise e => (Raise e, p)
  | Ok domain_data =>
      match lookup domain_data (entry_id config) with
      | Raise e => (Raise e, p)
      | Ok c =>
          let response := data (objects hass c) in
          match getitem response "Status" with
          | Raise e => (Raise e, p)
          | Ok (VDict items) =>
              match warming_up items with
              | Raise e => (Raise e, p)
              | Ok ws => (Ok tt, set_up hass c (keys response ++ ws) (warm_up_logged ws p))
              end
          | Ok _ => (Ok tt, set_up hass c (keys response) p)
          end
      end
  end.
Proof.
  unfold async_setup_entry, async_add_entities, _LOGGER_debug.
  cbv beta iota zeta
    delta [bind lift modify ret set_up warm_up_logged available_sensors
           sensor.entities sensor.log].
  destruct (lookup (hass_data hass) DOMAIN) as [domain_data|e]; [|reflexivity].
  destruct (lookup domain_data (entry_id config)) as [c|e]; [|reflexivity].
  destruct (getitem (data (objects hass c)) "Status") as [status|e]; [|reflexivity].
  destruct status as [| | | | | |items]; [reflexivity..|].
  destruct (warming_up items) as [ws|e]; reflexivity.
Qed.

(** The entities of a setup run, by the keys found available. *)
Lemma created_run (hass : HomeAssistant) (config : ConfigEntry)
    (domain_data : list (string * coordinator_ref)) (c : coordinator_ref) :
  lookup (hass_data hass) DOMAIN = Ok domain_data ->
  lookup domain_data (entry_id config) = Ok c ->
  let response := data (objects hass c) in
  created hass config =
  match dict_get response "Status" with
  | None => []
  | Some (VDict items) =>
      match warming_up items with
      | Raise _ => []
      | Ok ws => map (AirQSensor_init hass c) (available_sensors (keys response ++ ws))
      end
  | Some _ => map (AirQSensor_init hass c) (available_sensors (keys response))
  end.
Proof.
  intros Hdomain Hentry response. unfold created.
  rewrite async_setup_entry_run, Hdomain, Hentry. cbv zeta. fold response.
  unfold getitem.
  destruct (dict_get response "Status") as [status|]; [|reflexivity].
  destruct status as [| | | | | |items]; [reflexivity..|].
  destruct (warming_up items); reflexivity.
Qed.

(** Without a coordinator for the entry nothing is created. *)
Lemma created_without_coordinator (hass : HomeAssistant) (config : ConfigEntry) :
  (forall domain_data c,
     lookup (hass_data hass) DOMAIN = Ok domain_data ->
     lookup domain_data (entry_id config) <> Ok c) ->
  created hass config = [].
Proof.
  intros Hnone. unfold created. rewrite async_setup_entry_run.
  destruct (lookup (hass_data hass) DOMAIN) as [domain_data|e]; [|reflexivity].
  destruct (lookup domain_data (entry_id config)) as [c|e] eqn:Hc; [|reflexivity].
  now destruct (Hnone domain_data c eq_refl).
Qed.

Lemma In_available_sensors (ks : list string) (d : AirQEntityDescription) :
  In d (available_sensors ks) <-> In d SENSOR_TYPES /\ In (key d) ks.
Proof.
  unfold available_sensors. rewrite filter_In, in_list_In. reflexivity.
Qed.

(** The entities created are those of the catalog entries whose key is a key
    of the response or is listed as warming up. *)
Lemma In_created (hass : HomeAssistant) (config : ConfigEntry)
    (domain_data : list (string * coordinator_ref)) (c : coordinator_ref)
    (e : AirQSensor) :
  lookup (hass_data hass) DOMAIN = Ok domain_data ->
  lookup domain_data (entry_id config) = Ok c ->
  let response := data (objects hass c) in
  In e (created hass config) ->
  e = AirQSensor_init hass c (entity_description e) /\
  In (entity_description e) SENSOR_TYPES /\
  (In (key (entity_description e)) (keys response) \/
   warming_up_in response (key (entity_description e))).
Proof.
  intros Hdomain Hentry response.
  rewrite (created_run hass config domain_data c Hdomain Hentry). fold response.
  destruct (dict_get response "Status") as [status|] eqn:Hstatus; [|intros []].
  assert (forall ks, In e (map (AirQSensor_init hass c) (available_sensors ks)) ->
            e = AirQSensor_init hass c (entity_description e) /\
            In (entity_description e) SENSOR_TYPES /\
            In (key (entity_description e)) ks) as Hmap.
  { intros ks Hin. apply in_map_iff in Hin as [d [<- Hd]].
    apply In_available_sensors in Hd. destruct Hd as [Hcat Hkey].
    now repeat split. }
  destruct status as [| | | | | |items];
    [intros Hin; apply Hmap in Hin as [He [Hcat Hkey]];
     split; [exact He|split; [exact Hcat|left; exact Hkey]]..|].
  destruct (warming_up items) as [ws|err] eqn:Hws; [|intros []].
  intros Hin. apply Hmap in Hin as [He [Hcat Hkey]].
  split; [exact He|split; [exact Hcat|]].
  apply in_app_iff in Hkey as [Hkey|Hkey]; [left; exact Hkey|right].
  apply (warming_up_In items ws _ Hws) in Hkey as [v [Hv Hhit]].
  now exists items, v.
Qed.

(** C5: a catalog entry whose key is neither a key of the coordinator's data
    nor listed as warming up under "Status" gets no entity, and every entity
    created is that of a catalog entry whose key is available in one of the
    two ways. *)
Theorem entities_only_for_available_keys (hass : HomeAssistant) (config : ConfigEntry)
    (domain_data : list (string * coordinator_ref)) (c : coordinator_ref) :
  lookup (hass_data hass) DOMAIN = Ok domain_data ->
  lookup domain_data (entry_id config) = Ok c ->
  let response := data (objects hass c) in
  (forall d,
     In d SENSOR_TYPES ->
     ~ In (key d) (keys response) ->
     ~ warming_up_in response (key d) ->
     forall e, In e (created hass config) ->
       entity_description e <> d /\ key (entity_description e) <> key d) /\
  (forall e,
     In e (created hass config) ->
     In (entity_description e) SENSOR_TYPES /\
     coordinator e = c /\
     (In (key (entity_description e)) (keys response) \/
      warming_up_in response (key (entity_description e)))).
Proof.
  intros Hdomain Hentry response. split.
  - intros d _ Hdata Hwarm e He.
    destruct (In_created hass config domain_data c e Hdomain Hentry He)
      as [_ [_ Havailable]].
    fold response in Havailable.
    assert (key (entity_description e) <> key d) as Hkey.
    { intros Heq. rewrite Heq in Havailable. tauto. }
    split; [congruence|exact Hkey].
  - intros e He.
    destruct (In_created hass config domain_data c e Hdomain Hentry He)
      as [Hinit [Hcat Havailable]].
    split; [exact Hcat|split; [|exact Havailable]].
    rewrite Hinit. reflexivity.
Qed.

(** C9: setup indexes the coordinator's data at "Status" whatever else the
    data holds: without that key it raises KeyError and creates nothing; with
    a "Status" value that is not a dict it skips the warm-up scan and sets up
    the sensors for the keys of the data alone. *)
Theorem status_key_is_required (hass : HomeAssistant) (config : ConfigEntry)
    (domain_data : list (string * coordinator_ref)) (c : coordinator_ref)
    (p : platform) :
  lookup (hass_data hass) DOMAIN = Ok domain_data ->
  lookup domain_data (entry_id config) = Ok c ->
  let response := data (objects hass c) in
  (dict_get response "Status" = None ->
   async_setup_entry hass config p = (Raise (KeyError "Status"), p)) /\
  (forall status,
     dict_get response "Status" = Some status ->
     (forall items, status <> VDict items) ->
     async_setup_entry hass config p = (Ok tt, set_up hass c (keys response) p)).
Proof.
  intros Hdomain Hentry response.
  rewrite async_setup_entry_run, Hdomain, Hentry. cbv zeta. fold response.
  unfold getitem. split.
  - intros ->. reflexivity.
  - intros status -> Hnodict.
    destruct status as [| | | | | |items]; [reflexivity..|].
    now destruct (Hnodict items).
Qed.

(** The transform each catalog entry declares: the two index sensors divide
    by ten, every other entry exposes the value as it is. *)
Lemma catalog_transforms (d : AirQEntityDescription) :
  In d SENSOR_TYPES ->
  ((key d = "health" \/ key d = "performance") /\ value_transform_fn d = _index2percent) \/
  (key d <> "health" /\ key d <> "performance" /\ value_transform_fn d = expose_as_is).
Proof.
  unfold SENSOR_TYPES. intros Hin.
  repeat (destruct Hin as [<-|Hin];
          [first [ left; split; [auto|reflexivity]
                 | right; split; [discriminate|split; [discriminate|reflexivity]] ]|]).
  destruct Hin.
Qed.

(** C6: when the entity's key is in the coordinator's data, a read of
    native_value is the declared transform applied once to the stored value;
    for the catalog's "health" and "performance" entries that is the stored
    value divided by 10.0, for every other catalog entry the stored value
    itself. *)
Theorem native_value_applies_transform_once
    (hass : HomeAssistant) (self : AirQSensor) (raw : value) :
  dict_get (data (objects hass (coordinator self))) (key (entity_description self)) = Some raw ->
  native_value hass self = value_transform_fn (entity_description self) raw /\
  (In (entity_description self) SENSOR_TYPES ->
   (key (entity_description self) = "health" \/
    key (entity_description self) = "performance" ->
    native_value hass self = truediv_float raw 10%float) /\
   (key (entity_description self) <> "health" ->
    key (entity_description self) <> "performance" ->
    native_value hass self = Ok raw)).
Proof.
  intros Hraw.
  assert (native_value hass self = value_transform_fn (entity_description self) raw)
    as Hread.
  { unfold native_value. now rewrite Hraw. }
  split; [exact Hread|].
  intros Hcat. rewrite Hread.
  destruct (catalog_transforms _ Hcat) as [[Hkey ->]|[Hhealth [Hperf ->]]].
  - split; [reflexivity|]. intros Hh Hp. destruct Hkey; contradiction.
  - split; [|reflexivity]. intros [Hkey|Hkey]; contradiction.
Qed.

(** A read while the key is absent applies the transform to None. *)
Lemma native_value_of_absent_key (hass : HomeAssistant) (self : AirQSensor) :
  dict_get (data (objects hass (coordinator self))) (key (entity_description self)) = None ->
  native_value hass self = value_transform_fn (entity_description self) VNone.
Proof.
  intros Habsent. unfold native_value. now rewrite Habsent.
Qed.

(** X18: a catalog key listed as warming up gets its entity although the data
    lacks the key, provided the scan of "Status" does not raise; read while
    the key is still absent, an entity whose entry is not one of the two
    index sensors gives None. *)
Lemma warming_up_sensor_is_created (hass : HomeAssistant) (config : ConfigEntry)
    (domain_data : list (string * coordinator_ref)) (c : coordinator_ref)
    (d : AirQEntityDescription) (items : list (string * value)) (ws : list string) :
  lookup (hass_data hass) DOMAIN = Ok domain_data ->
  lookup domain_data (entry_id config) = Ok c ->
  dict_get (data (objects hass c)) "Status" = Some (VDict items) ->
  warming_up items = Ok ws ->
  In d SENSOR_TYPES ->
  In (key d) ws ->
  In (AirQSensor_init hass c d) (created hass config) /\
  (key d <> "health" -> key d <> "performance" ->
   forall later,
     dict_get (data (objects later c)) (key d) = None ->
     native_value later (AirQSensor_init hass c d) = Ok VNone).
Proof.
  intros Hdomain Hentry Hstatus Hws Hcat Hkey. split.
  - rewrite (created_run hass config domain_data c Hdomain Hentry).
    cbv zeta. rewrite Hstatus, Hws.
    apply in_map, In_available_sensors. split; [exact Hcat|].
    apply in_app_iff. now right.
  - intros Hhealth Hperf later Habsent.
    rewrite native_value_of_absent_key by exact Habsent.
    destruct (catalog_transforms d Hcat) as [[[Hk|Hk] _]|[_ [_ Hfn]]];
      [contradiction..|].
    simpl. now rewrite Hfn.
Qed.

Lemma distinct_NoDup (l : list string) : distinct l = true -> NoDup l.
Proof.
  induction l as [|k rest IH]; simpl; intros Hd; [constructor|].
  apply andb_true_iff in Hd as [Hk Hrest].
  constructor; [|auto].
  intros Hin. apply in_list_In in Hin. now rewrite Hin in Hk.
Qed.

Lemma NoDup_map_filter {A B} (g : A -> B) (keep : A -> bool) (l : list A) :
  NoDup (map g l) -> NoDup (map g (filter keep l)).
Proof.
  induction l as [|a rest IH]; simpl; intros Hnd; [constructor|].
  inversion Hnd as [|? ? Hnotin Hrest]; subst.
  destruct (keep a); simpl; [|auto].
  constructor; [|auto].
  intros Hin. apply Hnotin.
  apply in_map_iff in Hin as [x [Hx Hin]].
  apply filter_In in Hin as [Hin _].
  apply in_map_iff. now exists x.
Qed.

Lemma append_injective (prefix a b : string) : prefix ++ a = prefix ++ b -> a = b.
Proof.
  induction prefix as [|ch prefix IH]; simpl; intros Heq; [exact Heq|].
  injection Heq as Heq. auto.
Qed.

Lemma NoDup_map_append (prefix : string) (l : list string) :
  NoDup l -> NoDup (map (fun k => prefix ++ k) l).
Proof.
  induction 1 as [|k rest Hnotin Hnd IH]; simpl; constructor; [|exact IH].
  intros Hin. apply in_map_iff in Hin as [k' [Heq Hin]].
  apply append_injective in Heq. now subst.
Qed.

(** C10: the keys of the catalog are pairwise distinct; a setup run creates
    at most one entity per catalog key, whether the key is found in the data,
    in the warm-up list or in both; and the unique ids of the entities
    created, the device id joined to the key by an underscore, are pairwise
    distinct. *)
Theorem unique_ids_are_distinct (hass : HomeAssistant) (config : ConfigEntry) :
  NoDup (map key SENSOR_TYPES) /\
  NoDup (map (fun e => key (entity_description e)) (created hass config)) /\
  NoDup (map _attr_unique_id (created hass config)) /\
  (forall e,
     In e (created hass config) ->
     _attr_unique_id e =
       format_value (device_id (objects hass (coordinator e))) ++ "_" ++
       key (entity_description e)).
Proof.
  assert (NoDup (map key SENSOR_TYPES)) as Hcatalog.
  { apply distinct_NoDup. vm_compute. reflexivity. }
  split; [exact Hcatalog|].
  assert (forall c ks,
            let es := map (AirQSensor_init hass c) (available_sensors ks) in
            NoDup (map (fun e => key (entity_description e)) es) /\
            NoDup (map _attr_unique_id es) /\
            (forall e, In e es ->
               _attr_unique_id e =
                 format_value (device_id (objects hass (coordinator e))) ++ "_" ++
                 key (entity_description e))) as Hsetup.
  { intros c ks es. unfold es. rewrite !map_map.
    assert (NoDup (map key (available_sensors ks))) as Hkeys.
    { apply NoDup_map_filter, Hcatalog. }
    split; [exact Hkeys|split].
    - assert (map (fun x => _attr_unique_id (AirQSensor_init hass c x))
                (available_sensors ks) =
              map (fun k => format_value (device_id (objects hass c)) ++ k)
                (map (fun k => "_" ++ k) (map key (available_sensors ks)))) as ->.
      { rewrite !map_map. reflexivity. }
      apply NoDup_map_append, NoDup_map_append, Hkeys.
    - intros e Hin. apply in_map_iff in Hin as [d [<- _]]. reflexivity. }
  assert (NoDup (@nil string) /\ NoDup (@nil string) /\
          (forall e : AirQSensor, In e [] -> _attr_unique_id e =
             format_value (device_id (objects hass (coordinator e))) ++ "_" ++
             key (entity_description e))) as Hnone.
  { split; [constructor|split; [constructor|intros e []]]. }
  unfold created. rewrite async_setup_entry_run.
  destruct (lookup (hass_data hass) DOMAIN) as [domain_data|err]; [|exact Hnone].
  destruct (lookup domain_data (entry_id config)) as [c|err]; [|exact Hnone].
  cbv zeta.
  destruct (getitem (data (objects hass c)) "Status") as [status|err]; [|exact Hnone].
  destruct status as [| | | | | |items]; [apply Hsetup..|].
  destruct (warming_up items) as [ws|err]; [apply Hsetup|exact Hnone].
Qed.

End SensorProperties.

(** ** The platform on concrete responses *)

Section SensorRuns.
Import sensor.
Existing Instance example_const.

(** C2: the health index is listed as warming up and absent from the data.
    Its entity is created, but reading it raises TypeError instead of giving
    None: the read hands None to the entry's transform, which divides it by
    10.0. *)
Theorem warming_up_health_index_raises :
  let surroundings := environment_with reachable_device in
  let hass := hass_with health_warming_up in
  dict_get health_warming_up "health" = None /\
  warming_up_in health_warming_up "health" /\
  exists d,
    In d SENSOR_TYPES /\ key d = "health" /\
    created hass example_entry =
      [ AirQSensor_init hass 0 (description "co2" "CO2" (Some CO2)
                                  CONCENTRATION_PARTS_PER_MILLION None expose_as_is);
        AirQSensor_init hass 0 d ] /\
    native_value hass (AirQSensor_init hass 0 d) =
      Raise (TypeError "unsupported operand type(s) for /: 'NoneType' and 'float'").
Proof.
  intros surroundings hass.
  split; [reflexivity|split].
  - exists [ ("health", VStr "sensor still in warm up phase") ],
           (VStr "sensor still in warm up phase").
    split; [reflexivity|split; [now left|reflexivity]].
  - exists (description "health" "Health Index" None PERCENTAGE
              (Some "mdi:heart-pulse") _index2percent).
    split; [unfold SENSOR_TYPES; simpl; tauto|].
    split; [reflexivity|split; vm_compute; reflexivity].
Qed.

(** A key found both in the data and in the warm-up list gets one entity. *)
Lemma one_entity_for_key_listed_twice :
  let surroundings := environment_with reachable_device in
  let hass := hass_with co_listed_twice in
  map _attr_unique_id (created hass example_entry) = [ "a1b2c3_co" ].
Proof.
  vm_compute. reflexivity.
Qed.

(** While the CO sensor warms up, the response names four catalog keys and
    ozone is not among them. *)
Lemma entities_only_for_available_keys_witness :
  let surroundings := environment_with reachable_device in
  let hass := hass_with co_warming_up in
  let ozone :=
    description "o3" "Ozone" (Some OZONE) CONCENTRATION_MICROGRAMS_PER_CUBIC_METER
      None expose_as_is in
  (lookup (hass_data hass) DOMAIN = Ok [ ("entry1", 0) ] /\
   lookup [ ("entry1", 0) ] (entry_id example_entry) = Ok 0 /\
   In ozone SENSOR_TYPES /\
   ~ In (key ozone) (keys co_warming_up) /\
   ~ warming_up_in co_warming_up (key ozone)) /\
  (forall e, In e (created hass example_entry) -> entity_description e <> ozone) /\
  map (fun e => key (entity_description e)) (created hass example_entry) =
    [ "co"; "co2"; "health"; "temperature" ].
Proof.
  intros surroundings hass ozone.
  assert (In ozone SENSOR_TYPES) as Hcat.
  { unfold SENSOR_TYPES, ozone. simpl. tauto. }
  assert (~ In (key ozone) (keys co_warming_up)) as Hdata.
  { simpl. intros [Hk|[Hk|[Hk|[Hk|[]]]]]; discriminate. }
  assert (~ warming_up_in co_warming_up (key ozone)) as Hwarm.
  { intros [items [v [Hstatus [Hin _]]]].
    injection Hstatus as <-. destruct Hin as [Hk|[]]. discriminate. }
  split; [repeat split; assumption|].
  split; [|vm_compute; reflexivity].
  intros e He.
  exact (proj1 (proj1 (@entities_only_for_available_keys example_const surroundings
                         hass example_entry [ ("entry1", 0) ] 0 eq_refl eq_refl)
                  ozone Hcat Hdata Hwarm e He)).
Defined.

(** A stored health index of 750 reads as 75.0. *)
Lemma native_value_applies_transform_once_witness :
  let hass := hass_with co_warming_up in
  let self :=
    AirQSensor_init (H0 := environment_with reachable_device) hass 0
      (description "health" "Health Index" None PERCENTAGE (Some "mdi:heart-pulse")
         _index2percent) in
  dict_get (data (objects hass (coordinator self))) (key (entity_description self)) =
    Some (VInt 750) /\
  native_value hass self = Ok (VFloat 75%float).
Proof.
  intros hass self.
  split; [reflexivity|].
  exact (proj1 (native_value_applies_transform_once hass self (VInt 750) eq_refl)).
Defined.

(** A response without "Status", and one whose "Status" is a string. *)
Lemma status_key_is_required_witness :
  let surroundings := environment_with reachable_device in
  (lookup (hass_data (hass_with [ ("co", VFloat 0.5) ])) DOMAIN = Ok [ ("entry1", 0) ] /\
   lookup [ ("entry1", 0) ] (entry_id example_entry) = Ok 0 /\
   dict_get [ ("co", VFloat 0.5) ] "Status" = None /\
   dict_get co_reporting "Status" = Some (VStr "OK") /\
   (forall items, VStr "OK" <> VDict items)) /\
  async_setup_entry (hass_with [ ("co", VFloat 0.5) ]) example_entry new_platform =
    (Raise (KeyError "Status"), new_platform) /\
  async_setup_entry (hass_with co_reporting) example_entry new_platform =
    (Ok tt, set_up (hass_with co_reporting) 0 (keys co_reporting) new_platform).
Proof.
  intros surroundings.
  assert (forall items, VStr "OK" <> VDict items) as Hnodict by discriminate.
  split; [repeat split; assumption|].
  split.
  - exact (proj1 (@status_key_is_required example_const surroundings
                    (hass_with [ ("co", VFloat 0.5) ]) example_entry
                    [ ("entry1", 0) ] 0 new_platform eq_refl eq_refl) eq_refl).
  - exact (proj2 (@status_key_is_required example_const surroundings
                    (hass_with co_reporting) example_entry
                    [ ("entry1", 0) ] 0 new_platform eq_refl eq_refl)
                 (VStr "OK") eq_refl Hnodict).
Defined.

End SensorRuns.

(** * Further behaviour of the setup wizard *)

Section FlowBehaviour.
Context `{Const} `{Environment}.
Import config_flow.

Lemma getitem_raises (d : dict) (k : string) (e : exn) :
  getitem d k = Raise e -> e = KeyError k /\ dict_get d k = None.
Proof.
  unfold getitem. destruct (dict_get d k); [discriminate|].
  intros Heq. injection Heq as <-. now split.
Qed.

(** A failing subscript raises KeyError or TypeError, which the generic
    handler catches. *)
Lemma subscript_raises (v : value) (k : string) (e : exn) :
  subscript v k = Raise e ->
  is_CannotConnect e = false /\ is_InvalidAuth e = false /\ is_Exception e = true.
Proof.
  destruct v; simpl; try (intros Heq; injection Heq as <-; now repeat split).
  intros Heq. apply getitem_raises in Heq as [-> _]. now repeat split.
Qed.

(** X1: a submitted input that lacks the address or the secret never
    reaches the device: the KeyError of the lookup is caught by the generic
    handler, one record is logged and the form is shown again with the error
    code "unknown". *)
Theorem missing_credentials_show_unknown (user_input : dict) (f : flow) :
  dict_get user_input CONF_IP_ADDRESS = None \/
  dict_get user_input CONF_SECRET = None ->
  async_step_user (Some user_input) f =
    (Ok (form_with_error "unknown"), logged f "Unexpected exception") /\
  calls (snd (async_step_user (Some user_input) f)) = calls f.
Proof.
  intros Hmissing.
  assert (async_step_user (Some user_input) f =
          (Ok (form_with_error "unknown"), logged f "Unexpected exception")) as Hstep.
  { rewrite async_step_user_run, validate_input_run. unfold getitem.
    destruct (dict_get user_input CONF_IP_ADDRESS) as [address|]; [|reflexivity].
    destruct Hmissing as [Habsent|Habsent]; [discriminate|].
    rewrite Habsent. reflexivity. }
  split; [exact Hstep|]. now rewrite Hstep.
Qed.

(** X2: when the device authenticates and answers the "config" request
    with something that has no "devicename" or no "id", the form is shown
    again with the error code "unknown" after both client calls, one record
    is logged, and the flow takes no unique id. *)
Theorem malformed_config_shows_unknown
    (user_input : dict) (address secret config : value) (f : flow) :
  dict_get user_input CONF_IP_ADDRESS = Some address ->
  dict_get user_input CONF_SECRET = Some secret ->
  test_authentication (AirQ_init address secret) = Ok true ->
  get (AirQ_init address secret) "config" = Ok config ->
  (exists e, subscript config "devicename" = Raise e) \/
  (exists e, subscript config "id" = Raise e) ->
  async_step_user (Some user_input) f =
    (Ok (form_with_error "unknown"),
     logged (with_calls f [ Call_authenticate; Call_get "config" ])
       "Unexpected exception") /\
  unique_id (snd (async_step_user (Some user_input) f)) = unique_id f.
Proof.
  intros Haddress Hsecret Hauth Hget Hbad.
  assert (exists e,
            validate_input user_input f =
              (Raise e, with_calls f [ Call_authenticate; Call_get "config" ]) /\
            is_CannotConnect e = false /\ is_InvalidAuth e = false /\
            is_Exception e = true) as [e [Hrun [Hc [Ha He]]]].
  { rewrite validate_input_run. unfold getitem.
    rewrite Haddress, Hsecret. cbv zeta. rewrite Hauth, Hget.
    destruct (subscript config "devicename") as [devicename|e1] eqn:Hname.
    - destruct Hbad as [[e Hbad]|[e Hbad]]; [discriminate|].
      rewrite Hbad. exists e. split; [reflexivity|].
      exact (subscript_raises _ _ _ Hbad).
    - exists e1. split; [reflexivity|]. exact (subscript_raises _ _ _ Hname). }
  assert (async_step_user (Some user_input) f =
          (Ok (form_with_error "unknown"),
           logged (with_calls f [ Call_authenticate; Call_get "config" ])
             "Unexpected exception")) as Hstep.
  { rewrite async_step_user_run, Hrun, Hc, Ha, He. reflexivity. }
  split; [exact Hstep|]. now rewrite Hstep.
Qed.

(** Why validation fails.  An exception leaving [validate_input] is the
    KeyError of a missing address or secret, or what the authentication
    raised, or InvalidAuth after the authentication returned False, or what
    the fetch of "config" raised, or what a subscript of the fetched
    configuration raised; the first two leave the client untouched. *)
Lemma validate_input_failure (data : dict) (f f1 : flow) (e : exn) :
  validate_input data f = (Raise e, f1) ->
  (e = KeyError CONF_IP_ADDRESS /\ dict_get data CONF_IP_ADDRESS = None /\ f1 = f) \/
  (e = KeyError CONF_SECRET /\ dict_get data CONF_SECRET = None /\ f1 = f) \/
  exists address secret,
    dict_get data CONF_IP_ADDRESS = Some address /\
    dict_get data CONF_SECRET = Some secret /\
    let client := AirQ_init address secret in
    (test_authentication client = Raise e \/
     (test_authentication client = Ok false /\ e = InvalidAuth) \/
     (test_authentication client = Ok true /\
      (get client "config" = Raise e \/
       exists config,
         get client "config" = Ok config /\
         (subscript config "devicename" = Raise e \/
          subscript config "id" = Raise e)))).
Proof.
  rewrite validate_input_run. unfold getitem.
  destruct (dict_get data CONF_IP_ADDRESS) as [address|] eqn:Haddress.
  2:{ intros Heq. injection Heq as <- <-. left. now repeat split. }
  destruct (dict_get data CONF_SECRET) as [secret|] eqn:Hsecret.
  2:{ intros Heq. injection Heq as <- <-. right; left. now repeat split. }
  cbv zeta. intros Hrun. right; right. exists address, secret.
  split; [reflexivity|split; [reflexivity|]].
  destruct (test_authentication (AirQ_init address secret)) as [[|]|e0].
  - right; right. split; [reflexivity|].
    destruct (get (AirQ_init address secret) "config") as [config|e0].
    + right. exists config. split; [reflexivity|].
      destruct (subscript config "devicename") as [devicename|e0].
      * destruct (subscript config "id") as [id|e0]; [discriminate|].
        right. congruence.
      * left. congruence.
    + left. congruence.
  - right; left. split; [reflexivity|]. congruence.
  - left. congruence.
Qed.

(** Validation changes nothing of the flow but its client calls. *)
Lemma validate_input_keeps (data : dict) (f : flow) :
  log (snd (validate_input data f)) = log f /\
  unique_id (snd (validate_input data f)) = unique_id f.
Proof.
  destruct (validate_input_calls data f) as [new [-> _]]. now split.
Qed.

(** A form answering a submitted input comes from an except clause. *)
Lemma async_step_user_form (user_input : dict) (f : flow)
    (step_id : string) (schema : list schema_key)
    (errors : option (list (string * string))) :
  fst (async_step_user (Some user_input) f) = Ok (Form step_id schema errors) ->
  exists e f1,
    validate_input user_input f = (Raise e, f1) /\
    step_id = "user" /\ schema = STEP_USER_DATA_SCHEMA /\
    ((is_CannotConnect e = true /\
      errors = Some [ ("base", "cannot_connect") ] /\
      snd (async_step_user (Some user_input) f) = f1) \/
     (is_CannotConnect e = false /\ is_InvalidAuth e = true /\
      errors = Some [ ("base", "invalid_auth") ] /\
      snd (async_step_user (Some user_input) f) = f1) \/
     (is_CannotConnect e = false /\ is_InvalidAuth e = false /\
      is_Exception e = true /\
      errors = Some [ ("base", "unknown") ] /\
      snd (async_step_user (Some user_input) f) = logged f1 "Unexpected exception")).
Proof.
  rewrite async_step_user_run.
  destruct (validate_input user_input f) as [[info|e] f1].
  - destruct (getitem info CONF_ID) as [uid|e]; [|discriminate].
    destruct (set_unique_id_result uid) as [[]|e]; [|discriminate].
    cbv zeta.
    destruct (unique_id_configured uid); [discriminate|].
    destruct (getitem info "title"); discriminate.
  - intros Hform. exists e, f1. split; [reflexivity|].
    unfold form_with_error in Hform.
    destruct (is_CannotConnect e).
    { injection Hform as <- <- <-. split; [reflexivity|split; [reflexivity|]].
      left. now repeat split. }
    destruct (is_InvalidAuth e).
    { injection Hform as <- <- <-. split; [reflexivity|split; [reflexivity|]].
      right; left. now repeat split. }
    destruct (is_Exception e); [|discriminate].
    injection Hform as <- <- <-. split; [reflexivity|split; [reflexivity|]].
    right; right. now repeat split.
Qed.

(** X3: the form is shown again with "cannot_connect" exactly when the
    address and the secret were submitted and a call on the device client
    itself raised CannotConnect: the authentication, or the fetch of
    "config" after a successful authentication. *)
Theorem cannot_connect_shown_iff (user_input : dict) (f : flow) :
  fst (async_step_user (Some user_input) f) = Ok (form_with_error "cannot_connect") <->
  exists address secret,
    dict_get user_input CONF_IP_ADDRESS = Some address /\
    dict_get user_input CONF_SECRET = Some secret /\
    (test_authentication (AirQ_init address secret) = Raise CannotConnect \/
     (test_authentication (AirQ_init address secret) = Ok true /\
      get (AirQ_init address secret) "config" = Raise CannotConnect)).
Proof.
  split.
  - intros Hform. apply async_step_user_form in Hform
      as [e [f1 [Hrun [_ [_ [[He _]|[[_ [_ [Herr _]]]|[_ [_ [_ [Herr _]]]]]]]]]]];
      [|discriminate..].
    destruct e; try discriminate.
    apply validate_input_failure in Hrun
      as [[Hk _]|[[Hk _]|[address [secret [Haddress [Hsecret Hcause]]]]]];
      [discriminate..|].
    exists address, secret. split; [exact Haddress|split; [exact Hsecret|]].
    cbv zeta in Hcause.
    destruct Hcause as [Hauth|[[_ Hk]|[Hauth [Hget|[config [_ [Hsub|Hsub]]]]]]].
    + now left.
    + discriminate.
    + now right.
    + apply subscript_raises in Hsub as [Hc _]. discriminate.
    + apply subscript_raises in Hsub as [Hc _]. discriminate.
  - intros [address [secret [Haddress [Hsecret Hcause]]]].
    rewrite async_step_user_run, validate_input_run. unfold getitem.
    rewrite Haddress, Hsecret. cbv zeta.
    destruct Hcause as [->|[-> ->]]; reflexivity.
Qed.

(** X4: the form is shown again with "invalid_auth" exactly when the
    address and the secret were submitted and the authentication returned
    False, or a call on the device client itself raised InvalidAuth. *)
Theorem invalid_auth_shown_iff (user_input : dict) (f : flow) :
  fst (async_step_user (Some user_input) f) = Ok (form_with_error "invalid_auth") <->
  exists address secret,
    dict_get user_input CONF_IP_ADDRESS = Some address /\
    dict_get user_input CONF_SECRET = Some secret /\
    (test_authentication (AirQ_init address secret) = Ok false \/
     test_authentication (AirQ_init address secret) = Raise InvalidAuth \/
     (test_authentication (AirQ_init address secret) = Ok true /\
      get (AirQ_init address secret) "config" = Raise InvalidAuth)).
Proof.
  split.
  - intros Hform. apply async_step_user_form in Hform
      as [e [f1 [Hrun [_ [_ [[_ [Herr _]]|[[_ [He _]]|[_ [_ [_ [Herr _]]]]]]]]]]];
      [discriminate| |discriminate].
    destruct e; try discriminate.
    apply validate_input_failure in Hrun
      as [[Hk _]|[[Hk _]|[address [secret [Haddress [Hsecret Hcause]]]]]];
      [discriminate..|].
    exists address, secret. split; [exact Haddress|split; [exact Hsecret|]].
    cbv zeta in Hcause.
    destruct Hcause as [Hauth|[[Hauth _]|[Hauth [Hget|[config [_ [Hsub|Hsub]]]]]]].
    + now right; left.
    + now left.
    + now right; right.
    + apply subscript_raises in Hsub as [_ [Ha _]]. discriminate.
    + apply subscript_raises in Hsub as [_ [Ha _]]. discriminate.
  - intros [address [secret [Haddress [Hsecret Hcause]]]].
    rewrite async_step_user_run, validate_input_run. unfold getitem.
    rewrite Haddress, Hsecret. cbv zeta.
    destruct Hcause as [->|[->|[-> ->]]]; reflexivity.
Qed.

(** X5: a step writes a log record exactly when it answers with the error
    code "unknown", and then it writes that one record; in every other
    outcome (the empty form, the other two codes, a created entry, an
    exception that leaves the step) the log stays as it was. *)
Theorem log_written_iff_unknown (submitted : option dict) (f : flow) :
  (fst (async_step_user submitted f) = Ok (form_with_error "unknown") /\
   log (snd (async_step_user submitted f)) =
     (log f ++ [ LogException "Unexpected exception" ])%list) \/
  (fst (async_step_user submitted f) <> Ok (form_with_error "unknown") /\
   log (snd (async_step_user submitted f)) = log f).
Proof.
  destruct submitted as [user_input|].
  2:{ right. split; [discriminate|reflexivity]. }
  rewrite async_step_user_run.
  pose proof (validate_input_keeps user_input f) as [Hlog _].
  destruct (validate_input user_input f) as [[info|e] f1]; simpl in Hlog.
  - right.
    destruct (getitem info CONF_ID) as [uid|e]; [|split; [discriminate|exact Hlog]].
    destruct (set_unique_id_result uid) as [[]|e]; [|split; [discriminate|exact Hlog]].
    cbv zeta.
    destruct (unique_id_configured uid); [split; [discriminate|exact Hlog]|].
    destruct (getitem info "title"); split; (discriminate || exact Hlog).
  - destruct (is_CannotConnect e); [right; split; [discriminate|exact Hlog]|].
    destruct (is_InvalidAuth e); [right; split; [discriminate|exact Hlog]|].
    destruct (is_Exception e); [|right; split; [discriminate|exact Hlog]].
    left. split; [reflexivity|]. simpl. now rewrite Hlog.
Qed.

(** X6: what fails after a successful validation is not turned into a
    form, for the calls on the unique id stand in the else clause of the
    try.  An exception of the framework's [async_set_unique_id], also one
    that derives from Exception, leaves the step with the flow as validation
    left it: no unique id taken, nothing logged.  When that call returns and
    an entry is configured already for the id, the step raises
    AbortFlow("already_configured") after the flow took the id, again with
    nothing logged.  Neither outcome is a form or a created entry. *)
Theorem failures_after_validation_propagate
    (user_input info : dict) (uid : value) (f f1 : flow) :
  validate_input user_input f = (Ok info, f1) ->
  getitem info CONF_ID = Ok uid ->
  (forall e,
     set_unique_id_result uid = Raise e ->
     async_step_user (Some user_input) f = (Raise e, f1)) /\
  (set_unique_id_result uid = Ok tt ->
   unique_id_configured uid = true ->
   async_step_user (Some user_input) f =
     (Raise (AbortFlow "already_configured"), identified f1 uid)).
Proof.
  intros Hrun Huid. split.
  - intros e Hset. rewrite async_step_user_run, Hrun, Huid.
    now rewrite Hset.
  - intros Hset Hconfigured. rewrite async_step_user_run, Hrun, Huid.
    rewrite Hset. cbv zeta. now rewrite Hconfigured.
Qed.

(** X7: no entry without the device.  When the step ends in a created
    entry, the address and the secret were submitted, the authentication
    returned True, the "config" request was answered, exactly these two
    client calls were made in this order, nothing was logged, and the title
    is "Air-Q " followed by the device name of that answer. *)
Theorem entry_requires_authentication
    (submitted : option dict) (f f' : flow) (title : value) (entry_data : dict) :
  async_step_user submitted f = (Ok (CreateEntry title entry_data), f') ->
  exists address secret config devicename,
    dict_get entry_data CONF_IP_ADDRESS = Some address /\
    dict_get entry_data CONF_SECRET = Some secret /\
    test_authentication (AirQ_init address secret) = Ok true /\
    get (AirQ_init address secret) "config" = Ok config /\
    subscript config "devicename" = Ok devicename /\
    title = VStr ("Air-Q " ++ format_value devicename) /\
    calls f' = (calls f ++ [ Call_authenticate; Call_get "config" ])%list /\
    log f' = log f.
Proof.
  destruct submitted as [user_input|]; [|discriminate].
  rewrite async_step_user_run, validate_input_run. unfold getitem.
  destruct (dict_get user_input CONF_IP_ADDRESS) as [address|] eqn:Haddress;
    [|discriminate].
  destruct (dict_get user_input CONF_SECRET) as [secret|] eqn:Hsecret;
    [|discriminate].
  cbv zeta.
  destruct (test_authentication (AirQ_init address secret)) as [[|]|e] eqn:Hauth.
  2:{ discriminate. }
  2:{ destruct (is_CannotConnect e); [discriminate|].
      destruct (is_InvalidAuth e); [discriminate|].
      destruct (is_Exception e); discriminate. }
  destruct (get (AirQ_init address secret) "config") as [config|e] eqn:Hget.
  2:{ destruct (is_CannotConnect e); [discriminate|].
      destruct (is_InvalidAuth e); [discriminate|].
      destruct (is_Exception e); discriminate. }
  destruct (subscript config "devicename") as [devicename|e] eqn:Hname.
  2:{ destruct (is_CannotConnect e); [discriminate|].
      destruct (is_InvalidAuth e); [discriminate|].
      destruct (is_Exception e); discriminate. }
  destruct (subscript config "id") as [id|e] eqn:Hid.
  2:{ destruct (is_CannotConnect e); [discriminate|].
      destruct (is_InvalidAuth e); [discriminate|].
      destruct (is_Exception e); discriminate. }
  destruct (dict_get _ CONF_ID) as [uid|]; [|discriminate].
  destruct (set_unique_id_result uid) as [[]|e]; [|discriminate].
  destruct (unique_id_configured uid); [discriminate|].
  simpl. intros Hstep. injection Hstep as <- <- <-.
  exists address, secret, config, devicename.
  now repeat split.
Qed.

(** X8: every form the step answers with is the "user" step with the
    schema of the two credentials; it carries no errors exactly when nothing
    was submitted, and otherwise one error under "base" whose code is one of
    "cannot_connect", "invalid_auth" and "unknown"; and a step that answers
    with a form leaves the flow's unique id as it was. *)
Theorem forms_are_the_user_step (submitted : option dict) (f : flow)
    (step_id : string) (schema : list schema_key)
    (errors : option (list (string * string))) :
  fst (async_step_user submitted f) = Ok (Form step_id schema errors) ->
  step_id = "user" /\
  schema = STEP_USER_DATA_SCHEMA /\
  ((submitted = None /\ errors = None) \/
   (submitted <> None /\
    exists code,
      errors = Some [ ("base", code) ] /\
      (code = "cannot_connect" \/ code = "invalid_auth" \/ code = "unknown"))) /\
  unique_id (snd (async_step_user submitted f)) = unique_id f.
Proof.
  destruct submitted as [user_input|].
  2:{ intros Hform. injection Hform as <- <- <-.
      split; [reflexivity|split; [reflexivity|split; [now left|reflexivity]]]. }
  intros Hform.
  pose proof (validate_input_keeps user_input f) as [_ Hid].
  apply async_step_user_form in Hform as [e [f1 [Hrun [-> [-> Hcode]]]]].
  rewrite Hrun in Hid; simpl in Hid.
  split; [reflexivity|split; [reflexivity|]].
  destruct Hcode as [[_ [-> ->]]|[[_ [_ [-> ->]]]|[_ [_ [_ [-> ->]]]]]].
  - split; [right; split; [discriminate|exists "cannot_connect"; auto]|exact Hid].
  - split; [right; split; [discriminate|exists "invalid_auth"; auto]|exact Hid].
  - split; [right; split; [discriminate|exists "unknown"; auto]|exact Hid].
Qed.

End FlowBehaviour.

(** * Further behaviour of the sensor platform *)

Section SensorBehaviour.
Context `{Const} `{Environment}.
Import sensor.

Lemma lookup_raises {A} (m : list (string * A)) (k : string) (e : exn) :
  lookup m k = Raise e -> e = KeyError k.
Proof.
  induction m as [|[k' a] rest IH]; simpl.
  - intros Heq. now injection Heq as <-.
  - destruct (String.eqb k k'); [discriminate|exact IH].
Qed.

Lemma contains_raises (needle : string) (v : value) (e : exn) :
  contains needle v = Raise e ->
  e = TypeError ("argument of type '" ++ type_name v ++ "' is not iterable") /\
  In (type_name v) [ "NoneType"; "bool"; "int"; "float" ].
Proof.
  destruct v; simpl; try discriminate;
    intros Heq; injection Heq as <-; (split; [reflexivity|tauto]).
Qed.

Lemma warming_up_raises (items : list (string * value)) (e : exn) :
  warming_up items = Raise e -> exists msg, e = TypeError msg.
Proof.
  induction items as [|[k v] rest IH]; simpl; [discriminate|].
  destruct (contains WARM_UP v) as [hit|e0] eqn:Hhit.
  - destruct (warming_up rest) as [ks|e1]; [discriminate|].
    intros Heq. injection Heq as <-. now apply IH.
  - intros Heq. injection Heq as <-.
    apply contains_raises in Hhit as [-> _]. eauto.
Qed.

(** The scan raises as soon as one status cannot be searched. *)
Lemma warming_up_of_unsearchable (items : list (string * value)) (k : string) (v : value) :
  In (k, v) items ->
  In (type_name v) [ "NoneType"; "bool"; "int"; "float" ] ->
  exists msg, warming_up items = Raise (TypeError msg).
Proof.
  intros Hin Htype.
  induction items as [|[k' v'] rest IH]; [destruct Hin|]. simpl.
  destruct (contains WARM_UP v') as [hit|e0] eqn:Hhit.
  - destruct Hin as [Heq|Hin].
    + injection Heq as -> ->. exfalso.
      destruct v; simpl in Htype, Hhit; try discriminate;
        repeat (destruct Htype as [Htype|Htype]; try discriminate); destruct Htype.
    + destruct (IH Hin) as [msg ->]. eauto.
  - apply contains_raises in Hhit as [-> _]. eauto.
Qed.

(** X9: a setup that raises has changed nothing: no entity was handed over
    and nothing was logged.  What it raises is the KeyError of a missing
    domain, entry id or "Status" key, or the TypeError of a status that
    cannot be searched for the warm-up text. *)
Theorem failed_setup_changes_nothing
    (hass : HomeAssistant) (config : ConfigEntry) (p p' : platform) (e : exn) :
  async_setup_entry hass config p = (Raise e, p') ->
  p' = p /\
  (e = KeyError DOMAIN \/ e = KeyError (entry_id config) \/ e = KeyError "Status" \/
   exists msg, e = TypeError msg).
Proof.
  rewrite async_setup_entry_run.
  destruct (lookup (hass_data hass) DOMAIN) as [domain_data|e0] eqn:Hdomain.
  2:{ intros Heq. injection Heq as <- <-. apply lookup_raises in Hdomain. auto. }
  destruct (lookup domain_data (entry_id config)) as [c|e0] eqn:Hentry.
  2:{ intros Heq. injection Heq as <- <-. apply lookup_raises in Hentry. auto. }
  cbv zeta.
  destruct (getitem (data (objects hass c)) "Status") as [status|e0] eqn:Hstatus.
  2:{ intros Heq. injection Heq as <- <-.
      unfold getitem in Hstatus.
      destruct (dict_get (data (objects hass c)) "Status"); [discriminate|].
      injection Hstatus as <-. auto. }
  destruct status as [| | | | | |items]; try discriminate.
  destruct (warming_up items) as [ws|e0] eqn:Hws; [discriminate|].
  intros Heq. injection Heq as <- <-.
  apply warming_up_raises in Hws. auto.
Qed.

(** X10: one status under "Status" that is None, a bool, an int or a float
    makes the whole setup raise TypeError: no entity is created, not even for
    the keys the data holds. *)
Theorem unsearchable_status_aborts_setup
    (hass : HomeAssistant) (config : ConfigEntry)
    (domain_data : list (string * coordinator_ref)) (c : coordinator_ref)
    (items : list (string * value)) (k : string) (v : value) (p : platform) :
  lookup (hass_data hass) DOMAIN = Ok domain_data ->
  lookup domain_data (entry_id config) = Ok c ->
  dict_get (data (objects hass c)) "Status" = Some (VDict items) ->
  In (k, v) items ->
  In (type_name v) [ "NoneType"; "bool"; "int"; "float" ] ->
  (exists msg, async_setup_entry hass config p = (Raise (TypeError msg), p)) /\
  created hass config = [].
Proof.
  intros Hdomain Hentry Hstatus Hin Htype.
  destruct (warming_up_of_unsearchable items k v Hin Htype) as [msg Hws].
  split.
  - exists msg. rewrite async_setup_entry_run, Hdomain, Hentry. cbv zeta.
    unfold getitem. now rewrite Hstatus, Hws.
  - rewrite (created_run hass config domain_data c Hdomain Hentry). cbv zeta.
    now rewrite Hstatus, Hws.
Qed.

(** X11: when setup returns, every catalog entry whose key is a key of
    the coordinator's data has its entity among those created, named as the
    entry and bound to the entry's coordinator. *)
Theorem reported_sensor_is_created
    (hass : HomeAssistant) (config : ConfigEntry)
    (domain_data : list (string * coordinator_ref)) (c : coordinator_ref)
    (d : AirQEntityDescription) :
  lookup (hass_data hass) DOMAIN = Ok domain_data ->
  lookup domain_data (entry_id config) = Ok c ->
  fst (async_setup_entry hass config new_platform) = Ok tt ->
  In d SENSOR_TYPES ->
  In (key d) (keys (data (objects hass c))) ->
  exists e,
    In e (created hass config) /\
    entity_description e = d /\ coordinator e = c /\ _attr_name e = name d.
Proof.
  intros Hdomain Hentry Hok Hcat Hkey.
  exists (AirQSensor_init hass c d).
  split; [|now repeat split].
  rewrite (created_run hass config domain_data c Hdomain Hentry). cbv zeta.
  rewrite async_setup_entry_run, Hdomain, Hentry in Hok. cbv zeta in Hok.
  unfold getitem in Hok.
  destruct (dict_get (data (objects hass c)) "Status") as [status|]; [|discriminate].
  assert (forall ks, In (key d) ks ->
            In (AirQSensor_init hass c d)
               (map (AirQSensor_init hass c) (available_sensors ks))) as Hmap.
  { intros ks Hks. apply in_map, In_available_sensors. now split. }
  destruct status as [| | | | | |items]; [apply Hmap; exact Hkey..|].
  destruct (warming_up items) as [ws|e]; [|discriminate].
  apply Hmap, in_app_iff. left. exact Hkey.
Qed.

(** X13: a catalog sensor other than the two index sensors never raises
    when read, whatever the data holds under its key: the reading is the
    stored value as it is, and None when the key is absent. *)
Theorem plain_sensor_never_raises (hass : HomeAssistant) (self : AirQSensor) :
  In (entity_description self) SENSOR_TYPES ->
  key (entity_description self) <> "health" ->
  key (entity_description self) <> "performance" ->
  native_value hass self =
    Ok (match dict_get (data (objects hass (coordinator self)))
                (key (entity_description self)) with
        | Some v => v
        | None => VNone
        end).
Proof.
  intros Hcat Hhealth Hperf. unfold native_value.
  destruct (catalog_transforms _ Hcat) as [[[Hk|Hk] _]|[_ [_ ->]]];
    [contradiction..|].
  reflexivity.
Qed.

Lemma ten_is_not_zero : PrimFloat.eqb 10%float PrimFloat.zero = false.
Proof. reflexivity. Qed.

Lemma float_of_int_raises (n : Z) (e : exn) :
  float_of_int n = Raise e -> e = OverflowError "int too large to convert to float".
Proof.
  unfold float_of_int.
  destruct (SpecFloat.binary_normalize 53 1024 n 0 false); try discriminate.
  intros Heq. now injection Heq as <-.
Qed.

(** X14: reading one of the two index sensors of the catalog.  A stored
    float gives that float divided by 10.0; a value that is None (also an
    absent key), a string, a list or a dict raises TypeError; whatever is
    stored, a reading that succeeds is a float, and no reading raises
    ZeroDivisionError. *)
Theorem index_sensor_reading (hass : HomeAssistant) (self : AirQSensor) :
  In (entity_description self) SENSOR_TYPES ->
  key (entity_description self) = "health" \/
  key (entity_description self) = "performance" ->
  let value_raw :=
    match dict_get (data (objects hass (coordinator self)))
            (key (entity_description self)) with
    | Some v => v
    | None => VNone
    end in
  (forall x, value_raw = VFloat x ->
     native_value hass self = Ok (VFloat (PrimFloat.div x 10%float))) /\
  (In (type_name value_raw) [ "NoneType"; "str"; "list"; "dict" ] ->
   native_value hass self =
     Raise (TypeError ("unsupported operand type(s) for /: '" ++ type_name value_raw
                       ++ "' and 'float'"))) /\
  (forall v, native_value hass self = Ok v -> exists y, v = VFloat y) /\
  (forall msg, native_value hass self <> Raise (ZeroDivisionError msg)).
Proof.
  intros Hcat Hkey value_raw.
  assert (native_value hass self = truediv_float value_raw 10%float) as ->.
  { unfold native_value. fold value_raw.
    destruct (catalog_transforms _ Hcat) as [[_ ->]|[Hh [Hp _]]]; [reflexivity|].
    destruct Hkey; contradiction. }
  clearbody value_raw. unfold truediv_float. rewrite ten_is_not_zero.
  repeat split.
  - intros x ->. reflexivity.
  - destruct value_raw; simpl; intros Htype; try reflexivity;
      repeat (destruct Htype as [Htype|Htype]; try discriminate); destruct Htype.
  - intros v. destruct value_raw; try discriminate.
    + intros Heq. injection Heq as <-. eauto.
    + destruct (float_of_int n); [|discriminate].
      intros Heq. injection Heq as <-. eauto.
    + intros Heq. injection Heq as <-. eauto.
  - intros msg. destruct value_raw; try discriminate.
    destruct (float_of_int n) as [x|e] eqn:Hn; [discriminate|].
    apply float_of_int_raises in Hn. subst e. discriminate.
Qed.

Lemma catalog_keys_distinct : NoDup (map key SENSOR_TYPES).
Proof. apply distinct_NoDup. vm_compute. reflexivity. Qed.

Lemma NoDup_map_eq {A B} (g : A -> B) (l : list A) (a b : A) :
  NoDup (map g l) -> In a l -> In b l -> g a = g b -> a = b.
Proof.
  induction l as [|x rest IH]; simpl; intros Hnd Ha Hb Heq; [destruct Ha|].
  inversion Hnd as [|? ? Hnotin Hrest]; subst.
  destruct Ha as [->|Ha], Hb as [->|Hb]; auto.
  - exfalso. apply Hnotin. rewrite Heq. now apply in_map.
  - exfalso. apply Hnotin. rewrite <- Heq. now apply in_map.
Qed.

Lemma append_empty_r (a : string) : a ++ "" = a.
Proof. induction a as [|c a IH]; simpl; [reflexivity|now rewrite IH]. Qed.

(** Two ways of splitting one string overlap in a common middle part. *)
Lemma append_eq_append (a x b y : string) :
  a ++ x = b ++ y ->
  exists p, (a = b ++ p /\ y = p ++ x) \/ (b = a ++ p /\ x = p ++ y).
Proof.
  revert b. induction a as [|c a IH]; intros b; simpl.
  - intros ->. exists b. right. now split.
  - destruct b as [|c' b]; simpl.
    + intros <-. exists (String c a). left. now split.
    + intros Heq. injection Heq as -> Heq.
      destruct (IH b Heq) as [p [[-> ->]|[-> ->]]]; exists p; [left|right]; now split.
Qed.

Lemma is_suffix_append (p s : string) : is_suffix s (p ++ s) = true.
Proof.
  assert (forall t, is_suffix s t =
            String.eqb s t
            || match t with EmptyString => false | String _ t' => is_suffix s t' end)
    as Hunfold by (intros t; destruct t; reflexivity).
  induction p as [|c p IH]; simpl.
  - rewrite Hunfold, String.eqb_refl. reflexivity.
  - rewrite IH. apply orb_true_r.
Qed.

Lemma no_key_after_underscore_In (ks : list string) (k1 k2 : string) :
  no_key_after_underscore ks = true ->
  In k1 ks -> In k2 ks -> is_suffix ("_" ++ k1) k2 = false.
Proof.
  unfold no_key_after_underscore. intros Hall H1 H2.
  rewrite forallb_forall in Hall. specialize (Hall k1 H1).
  rewrite forallb_forall in Hall. specialize (Hall k2 H2).
  now apply negb_true_iff in Hall.
Qed.

(** X15: the unique id tells the entity.  No catalog key ends in an
    underscore followed by another catalog key, so two entities of catalog
    entries, of whatever devices, that have the same unique id have the same
    catalog entry and the same device id text. *)
Theorem unique_id_determines_entity
    (hass1 hass2 : HomeAssistant) (c1 c2 : coordinator_ref)
    (d1 d2 : AirQEntityDescription) :
  In d1 SENSOR_TYPES ->
  In d2 SENSOR_TYPES ->
  _attr_unique_id (AirQSensor_init hass1 c1 d1) =
    _attr_unique_id (AirQSensor_init hass2 c2 d2) ->
  d1 = d2 /\
  format_value (device_id (objects hass1 c1)) =
    format_value (device_id (objects hass2 c2)).
Proof.
  intros H1 H2. simpl.
  set (a := format_value (device_id (objects hass1 c1))).
  set (b := format_value (device_id (objects hass2 c2))).
  intros Heq.
  assert (no_key_after_underscore (map key SENSOR_TYPES) = true) as Hkeys
    by (vm_compute; reflexivity).
  assert (In (key d1) (map key SENSOR_TYPES)) as Hk1 by now apply in_map.
  assert (In (key d2) (map key SENSOR_TYPES)) as Hk2 by now apply in_map.
  assert (key d1 = key d2 /\ a = b) as [Hkey Hid].
  { destruct (append_eq_append _ _ _ _ Heq) as [p [[Ha Hy]|[Hb Hx]]].
    - destruct p as [|ch p]; simpl in Hy.
      + injection Hy as Hy. rewrite append_empty_r in Ha. now split.
      + injection Hy as _ Hy. exfalso.
        pose proof (no_key_after_underscore_In _ _ _ Hkeys Hk1 Hk2) as Hno.
        rewrite Hy in Hno.
        change (p ++ String "_" (key d1)) with (p ++ ("_" ++ key d1)) in Hno.
        rewrite is_suffix_append in Hno. discriminate.
    - destruct p as [|ch p]; simpl in Hx.
      + injection Hx as Hx. rewrite append_empty_r in Hb. now split.
      + injection Hx as _ Hx. exfalso.
        pose proof (no_key_after_underscore_In _ _ _ Hkeys Hk2 Hk1) as Hno.
        rewrite Hx in Hno.
        change (p ++ String "_" (key d2)) with (p ++ ("_" ++ key d2)) in Hno.
        rewrite is_suffix_append in Hno. discriminate. }
  split; [|exact Hid].
  exact (NoDup_map_eq key SENSOR_TYPES d1 d2 catalog_keys_distinct H1 H2 Hkey).
Qed.

Lemma prefix_iff (n s : string) :
  String.prefix n s = true <-> exists post, s = n ++ post.
Proof.
  revert s. induction n as [|a n IH]; intros s.
  - split; [intros _; now exists s|intros _; destruct s; reflexivity].
  - destruct s as [|b s]; simpl.
    + split; [discriminate|intros [post Heq]; discriminate].
    + destruct (ascii_dec a b) as [->|Hneq].
      * rewrite IH. split; intros [post Heq]; exists post; congruence.
      * split; [discriminate|]. intros [post Heq]. congruence.
Qed.

Lemma str_in_unfold (n s : string) :
  str_in n s =
  String.prefix n s
  || match s with EmptyString => false | String _ s' => str_in n s' end.
Proof. destruct s; reflexivity. Qed.

(** [needle in s] holds exactly when [s] is some text, the needle, and some
    text. *)
Lemma str_in_iff (n s : string) :
  str_in n s = true <-> exists pre post, s = pre ++ n ++ post.
Proof.
  split.
  - induction s as [|c s IH]; rewrite str_in_unfold, orb_true_iff.
    + intros [Hp|Hf]; [|discriminate].
      apply prefix_iff in Hp as [post ->]. now exists "", post.
    + intros [Hp|Hin].
      * apply prefix_iff in Hp as [post Heq]. exists "", post. exact Heq.
      * destruct (IH Hin) as [pre [post ->]]. now exists (String c pre), post.
  - intros [pre [post ->]]. induction pre as [|c pre IH].
    + rewrite str_in_unfold. apply orb_true_iff. left.
      apply prefix_iff. now exists post.
    + simpl. rewrite IH. apply orb_true_r.
Qed.

(** X16: when every status under "Status" is a string, the warm-up scan
    does not raise, and it picks exactly the keys whose status holds the
    text "sensor still in warm up phase" somewhere, with any text before and
    after it. *)
Theorem warm_up_text_anywhere (items : list (string * value)) :
  (forall k v, In (k, v) items -> exists s, v = VStr s) ->
  exists ws,
    warming_up items = Ok ws /\
    forall k,
      In k ws <-> exists pre post, In (k, VStr (pre ++ WARM_UP ++ post)) items.
Proof.
  intros Hstrings.
  assert (exists ws, warming_up items = Ok ws) as [ws Hws].
  { induction items as [|[k v] rest IH]; simpl; [eauto|].
    destruct (Hstrings k v (or_introl eq_refl)) as [s ->]. simpl.
    destruct IH as [ws' ->]; [|eauto].
    intros k' v' Hin. apply (Hstrings k' v'). now right. }
  exists ws. split; [exact Hws|]. intros k.
  rewrite (warming_up_In items ws k Hws). split.
  - intros [v [Hin Hhit]].
    destruct (Hstrings k v Hin) as [s ->]. simpl in Hhit.
    injection Hhit as Hhit. apply str_in_iff in Hhit as [pre [post ->]].
    now exists pre, post.
  - intros [pre [post Hin]]. eexists. split; [exact Hin|].
    simpl. f_equal. apply str_in_iff. now exists pre, post.
Qed.

Lemma filter_map_swap {A B} (g : B -> bool) (h : A -> B) (l : list A) :
  filter g (map h l) = map h (filter (fun x => g (h x)) l).
Proof.
  induction l as [|x rest IH]; simpl; [reflexivity|].
  destruct (g (h x)); simpl; now rewrite IH.
Qed.

Lemma filter_none {A} (l : list A) : filter (fun _ => false) l = [].
Proof. induction l; simpl; auto. Qed.

(** X17: the entities are created in the order of the catalog, whatever
    the order of the keys in the response: their keys are the catalog's keys
    with some left out. *)
Theorem entities_follow_catalog_order (hass : HomeAssistant) (config : ConfigEntry) :
  exists keep : string -> bool,
    map (fun e => key (entity_description e)) (created hass config) =
    filter keep (map key SENSOR_TYPES).
Proof.
  assert (forall c ks,
            map (fun e => key (entity_description e))
              (map (AirQSensor_init hass c) (available_sensors ks)) =
            filter (fun k => in_list k ks) (map key SENSOR_TYPES)) as Hkeys.
  { intros c ks. rewrite map_map, filter_map_swap. reflexivity. }
  assert (@nil string = filter (fun _ => false) (map key SENSOR_TYPES)) as Hnone.
  { now rewrite filter_none. }
  unfold created. rewrite async_setup_entry_run.
  destruct (lookup (hass_data hass) DOMAIN) as [domain_data|e];
    [|exists (fun _ => false); exact Hnone].
  destruct (lookup domain_data (entry_id config)) as [c|e];
    [|exists (fun _ => false); exact Hnone].
  cbv zeta.
  destruct (getitem (data (objects hass c)) "Status") as [status|e];
    [|exists (fun _ => false); exact Hnone].
  destruct status as [| | | | | |items];
    [eexists; cbn [snd]; unfold set_up; cbn [sensor.entities];
     change (entities new_platform) with (@nil AirQSensor);
     rewrite app_nil_l; apply Hkeys..|].
  destruct (warming_up items) as [ws|e]; [|exists (fun _ => false); exact Hnone].
  eexists. cbn [snd]. unfold set_up. cbn [sensor.entities].
  change (entities (warm_up_logged ws new_platform)) with (@nil AirQSensor).
  rewrite app_nil_l. apply Hkeys.
Qed.

End SensorBehaviour.

(** ** Further runs of the wizard *)

Section FlowBehaviourRuns.
Import config_flow.
Existing Instance example_const.

(** An empty submission. *)
Lemma missing_credentials_show_unknown_witness :
  let surroundings := environment_with reachable_device in
  (dict_get [] CONF_IP_ADDRESS = None \/ dict_get [] CONF_SECRET = None) /\
  async_step_user (Some []) new_flow =
    (Ok (form_with_error "unknown"), logged new_flow "Unexpected exception") /\
  calls (snd (async_step_user (Some []) new_flow)) = calls new_flow.
Proof.
  intros surroundings.
  assert (dict_get [] CONF_IP_ADDRESS = None \/ dict_get [] CONF_SECRET = None)
    as Hmissing by now left.
  split; [exact Hmissing|].
  exact (missing_credentials_show_unknown [] new_flow Hmissing).
Defined.

(** A device whose configuration has no "id". *)
Lemma malformed_config_shows_unknown_witness :
  let surroundings := environment_with device_without_id in
  let config := VDict [ ("devicename", VStr "Living room") ] in
  (dict_get example_input CONF_IP_ADDRESS = Some (VStr "192.168.0.10") /\
   dict_get example_input CONF_SECRET = Some (VStr "12345678") /\
   test_authentication (AirQ_init (VStr "192.168.0.10") (VStr "12345678")) = Ok true /\
   get (AirQ_init (VStr "192.168.0.10") (VStr "12345678")) "config" = Ok config /\
   subscript config "id" = Raise (KeyError "id")) /\
  async_step_user (Some example_input) new_flow =
    (Ok (form_with_error "unknown"),
     logged (with_calls new_flow [ Call_authenticate; Call_get "config" ])
       "Unexpected exception").
Proof.
  intros surroundings config.
  split; [repeat split|].
  assert ((exists e, subscript config "devicename" = Raise e) \/
          (exists e, subscript config "id" = Raise e)) as Hbad.
  { right. now exists (KeyError "id"). }
  exact (proj1 (@malformed_config_shows_unknown example_const surroundings
                  example_input (VStr "192.168.0.10") (VStr "12345678") config new_flow
                  eq_refl eq_refl eq_refl eq_refl Hbad)).
Defined.

(** A client double that raises CannotConnect from the authentication. *)
Lemma cannot_connect_shown_iff_witness :
  let surroundings := environment_with double_raising_CannotConnect in
  test_authentication (AirQ_init (VStr "192.168.0.10") (VStr "12345678")) =
    Raise CannotConnect /\
  fst (async_step_user (Some example_input) new_flow) =
    Ok (form_with_error "cannot_connect").
Proof.
  intros surroundings.
  split; [reflexivity|].
  apply (proj2 (@cannot_connect_shown_iff example_const surroundings
                  example_input new_flow)).
  exists (VStr "192.168.0.10"), (VStr "12345678").
  split; [reflexivity|split; [reflexivity|left; reflexivity]].
Defined.

(** A device that rejects the password. *)
Lemma invalid_auth_shown_iff_witness :
  let surroundings := environment_with rejecting_device in
  test_authentication (AirQ_init (VStr "192.168.0.10") (VStr "12345678")) = Ok false /\
  fst (async_step_user (Some example_input) new_flow) =
    Ok (form_with_error "invalid_auth").
Proof.
  intros surroundings.
  split; [reflexivity|].
  apply (proj2 (@invalid_auth_shown_iff example_const surroundings
                  example_input new_flow)).
  exists (VStr "192.168.0.10"), (VStr "12345678").
  split; [reflexivity|split; [reflexivity|left; reflexivity]].
Defined.

(** A device for which another flow is in progress, and one for whose id
    an entry exists already. *)
Lemma failures_after_validation_propagate_witness :
  let in_progress := environment_in_progress reachable_device in
  let configured := environment_configured reachable_device in
  let info := [ ("title", VStr "Air-Q Living room"); ("id", VStr "a1b2c3") ] in
  let f1 := with_calls new_flow [ Call_authenticate; Call_get "config" ] in
  (validate_input (H0 := in_progress) example_input new_flow = (Ok info, f1) /\
   getitem info CONF_ID = Ok (VStr "a1b2c3") /\
   set_unique_id_result (Environment := in_progress) (VStr "a1b2c3") =
     Raise (AbortFlow "already_in_progress")) /\
  async_step_user (H0 := in_progress) (Some example_input) new_flow =
    (Raise (AbortFlow "already_in_progress"), f1) /\
  (validate_input (H0 := configured) example_input new_flow = (Ok info, f1) /\
   set_unique_id_result (Environment := configured) (VStr "a1b2c3") = Ok tt /\
   unique_id_configured (Environment := configured) (VStr "a1b2c3") = true) /\
  async_step_user (H0 := configured) (Some example_input) new_flow =
    (Raise (AbortFlow "already_configured"), identified f1 (VStr "a1b2c3")).
Proof.
  intros in_progress configured info f1.
  split; [repeat split|].
  split.
  { exact (proj1 (@failures_after_validation_propagate example_const in_progress
                    example_input info (VStr "a1b2c3") new_flow f1 eq_refl eq_refl)
                 (AbortFlow "already_in_progress") eq_refl). }
  split; [repeat split|].
  exact (proj2 (@failures_after_validation_propagate example_const configured
                  example_input info (VStr "a1b2c3") new_flow f1 eq_refl eq_refl)
               eq_refl eq_refl).
Defined.

(** The entry created for a reachable device. *)
Lemma entry_requires_authentication_witness :
  let surroundings := environment_with reachable_device in
  let f' := identified (with_calls new_flow [ Call_authenticate; Call_get "config" ])
              (VStr "a1b2c3") in
  async_step_user (Some example_input) new_flow =
    (Ok (CreateEntry (VStr "Air-Q Living room") example_input), f') /\
  exists address secret config devicename,
    dict_get example_input CONF_IP_ADDRESS = Some address /\
    dict_get example_input CONF_SECRET = Some secret /\
    test_authentication (AirQ_init address secret) = Ok true /\
    get (AirQ_init address secret) "config" = Ok config /\
    subscript config "devicename" = Ok devicename /\
    VStr "Air-Q Living room" = VStr ("Air-Q " ++ format_value devicename) /\
    calls f' = (calls new_flow ++ [ Call_authenticate; Call_get "config" ])%list /\
    log f' = log new_flow.
Proof.
  intros surroundings f'.
  split; [reflexivity|].
  exact (@entry_requires_authentication example_const surroundings
           (Some example_input) new_flow f' (VStr "Air-Q Living room") example_input
           eq_refl).
Defined.

(** The form shown after a rejected password. *)
Lemma forms_are_the_user_step_witness :
  let surroundings := environment_with rejecting_device in
  fst (async_step_user (Some example_input) new_flow) =
    Ok (Form "user" STEP_USER_DATA_SCHEMA (Some [ ("base", "invalid_auth") ])) /\
  unique_id (snd (async_step_user (Some example_input) new_flow)) = unique_id new_flow.
Proof.
  intros surroundings.
  split; [reflexivity|].
  exact (proj2 (proj2 (proj2
           (@forms_are_the_user_step example_const surroundings
              (Some example_input) new_flow "user" STEP_USER_DATA_SCHEMA
              (Some [ ("base", "invalid_auth") ]) eq_refl)))).
Defined.

End FlowBehaviourRuns.

(** ** Further runs of the platform *)

Section SensorBehaviourRuns.
Import sensor.
Existing Instance example_const.

(** A response without "Status". *)
Lemma failed_setup_changes_nothing_witness :
  let surroundings := environment_with reachable_device in
  let hass := hass_with [ ("co", VFloat 0.5) ] in
  async_setup_entry hass example_entry new_platform =
    (Raise (KeyError "Status"), new_platform) /\
  new_platform = new_platform /\
  (KeyError "Status" = KeyError DOMAIN \/
   KeyError "Status" = KeyError (entry_id example_entry) \/
   KeyError "Status" = KeyError "Status" \/
   exists msg, KeyError "Status" = TypeError msg).
Proof.
  intros surroundings hass.
  split; [reflexivity|].
  exact (@failed_setup_changes_nothing example_const surroundings hass example_entry
           new_platform new_platform (KeyError "Status") eq_refl).
Defined.

(** A "Status" that lists a number. *)
Lemma unsearchable_status_aborts_setup_witness :
  let surroundings := environment_with reachable_device in
  let hass := hass_with status_with_number in
  let items := [ ("co", VStr "co sensor still in warm up phase");
                 ("uptime", VInt 3600) ] in
  (lookup (hass_data hass) DOMAIN = Ok [ ("entry1", 0) ] /\
   lookup [ ("entry1", 0) ] (entry_id example_entry) = Ok 0 /\
   dict_get (data (objects hass 0)) "Status" = Some (VDict items) /\
   In ("uptime", VInt 3600) items /\
   In (type_name (VInt 3600)) [ "NoneType"; "bool"; "int"; "float" ]) /\
  (exists msg,
     async_setup_entry hass example_entry new_platform =
       (Raise (TypeError msg), new_platform)) /\
  created hass example_entry = [].
Proof.
  intros surroundings hass items.
  assert (In ("uptime", VInt 3600) items) as Hin by (right; now left).
  assert (In (type_name (VInt 3600)) [ "NoneType"; "bool"; "int"; "float" ]) as Htype
    by (right; right; now left).
  split; [repeat split; assumption|].
  exact (@unsearchable_status_aborts_setup example_const surroundings hass example_entry
           [ ("entry1", 0) ] 0 items "uptime" (VInt 3600) new_platform
           eq_refl eq_refl eq_refl Hin Htype).
Defined.

(** The CO2 reading of a response is given its entity. *)
Lemma reported_sensor_is_created_witness :
  let surroundings := environment_with reachable_device in
  let hass := hass_with co_warming_up in
  let co2 :=
    description "co2" "CO2" (Some CO2) CONCENTRATION_PARTS_PER_MILLION None
      expose_as_is in
  (lookup (hass_data hass) DOMAIN = Ok [ ("entry1", 0) ] /\
   lookup [ ("entry1", 0) ] (entry_id example_entry) = Ok 0 /\
   fst (async_setup_entry hass example_entry new_platform) = Ok tt /\
   In co2 SENSOR_TYPES /\
   In (key co2) (keys (data (objects hass 0)))) /\
  exists e,
    In e (created hass example_entry) /\
    entity_description e = co2 /\ coordinator e = 0 /\ _attr_name e = name co2.
Proof.
  intros surroundings hass co2.
  assert (In co2 SENSOR_TYPES) as Hcat.
  { unfold SENSOR_TYPES, co2. simpl. tauto. }
  assert (In (key co2) (keys (data (objects hass 0)))) as Hkey by now left.
  split; [repeat split; assumption|].
  exact (@reported_sensor_is_created example_const surroundings hass example_entry
           [ ("entry1", 0) ] 0 co2 eq_refl eq_refl eq_refl Hcat Hkey).
Defined.

(** The CO2 sensor reads a string as it is. *)
Lemma plain_sensor_never_raises_witness :
  let hass := hass_with [ ("co2", VStr "n/a"); ("Status", VStr "OK") ] in
  let self :=
    AirQSensor_init (H0 := environment_with reachable_device) hass 0
      (description "co2" "CO2" (Some CO2) CONCENTRATION_PARTS_PER_MILLION None
         expose_as_is) in
  (In (entity_description self) SENSOR_TYPES /\
   key (entity_description self) <> "health" /\
   key (entity_description self) <> "performance") /\
  native_value hass self = Ok (VStr "n/a").
Proof.
  intros hass self.
  assert (In (entity_description self) SENSOR_TYPES) as Hcat.
  { unfold SENSOR_TYPES, self. simpl. tauto. }
  assert (key (entity_description self) <> "health") as Hhealth by discriminate.
  assert (key (entity_description self) <> "performance") as Hperf by discriminate.
  split; [repeat split; assumption|].
  exact (plain_sensor_never_raises hass self Hcat Hhealth Hperf).
Defined.

(** The health index read while its key is absent. *)
Lemma index_sensor_reading_witness :
  let hass := hass_with health_warming_up in
  let self :=
    AirQSensor_init (H0 := environment_with reachable_device) hass 0
      (description "health" "Health Index" None PERCENTAGE (Some "mdi:heart-pulse")
         _index2percent) in
  (In (entity_description self) SENSOR_TYPES /\
   (key (entity_description self) = "health" \/
    key (entity_description self) = "performance") /\
   In (type_name VNone) [ "NoneType"; "str"; "list"; "dict" ]) /\
  native_value hass self =
    Raise (TypeError "unsupported operand type(s) for /: 'NoneType' and 'float'").
Proof.
  intros hass self.
  assert (In (entity_description self) SENSOR_TYPES) as Hcat.
  { unfold SENSOR_TYPES, self. simpl. tauto. }
  assert (key (entity_description self) = "health" \/
          key (entity_description self) = "performance") as Hkey by now left.
  assert (In (type_name VNone) [ "NoneType"; "str"; "list"; "dict" ]) as Htype
    by now left.
  split; [repeat split; assumption|].
  exact (proj1 (proj2 (index_sensor_reading hass self Hcat Hkey)) Htype).
Defined.

(** Two devices with one id text. *)
Lemma unique_id_determines_entity_witness :
  let surroundings := environment_with reachable_device in
  let hass1 := hass_with co_warming_up in
  let hass2 := hass_with co_reporting in
  let co2 :=
    description "co2" "CO2" (Some CO2) CONCENTRATION_PARTS_PER_MILLION None
      expose_as_is in
  (In co2 SENSOR_TYPES /\
   _attr_unique_id (AirQSensor_init hass1 0 co2) =
     _attr_unique_id (AirQSensor_init hass2 0 co2)) /\
  co2 = co2 /\
  format_value (device_id (objects hass1 0)) = format_value (device_id (objects hass2 0)).
Proof.
  intros surroundings hass1 hass2 co2.
  assert (In co2 SENSOR_TYPES) as Hcat.
  { unfold SENSOR_TYPES, co2. simpl. tauto. }
  split; [split; [exact Hcat|reflexivity]|].
  exact (@unique_id_determines_entity surroundings hass1 hass2 0 0 co2 co2
           Hcat Hcat eq_refl).
Defined.

(** A "Status" of two texts, one of them a warm-up notice. *)
Lemma warm_up_text_anywhere_witness :
  let items := [ ("co", VStr "co sensor still in warm up phase; waiting time = 18 s");
                 ("no2", VStr "sensor ready") ] in
  (forall k v, In (k, v) items -> exists s, v = VStr s) /\
  exists ws,
    warming_up items = Ok ws /\
    forall k,
      In k ws <-> exists pre post, In (k, VStr (pre ++ WARM_UP ++ post)) items.
Proof.
  intros items.
  assert (forall k v, In (k, v) items -> exists s, v = VStr s) as Hstrings.
  { intros k v [Heq|[Heq|[]]]; injection Heq as _ <-; eauto. }
  split; [exact Hstrings|].
  exact (warm_up_text_anywhere items Hstrings).
Defined.

(** The CO sensor while it warms up, read before and after it reports. *)
Lemma warming_up_sensor_is_created_witness :
  let surroundings := environment_with reachable_device in
  let hass := hass_with co_warming_up in
  let co :=
    description "co" "CO" (Some CO) CONCENTRATION_MILLIGRAMS_PER_CUBIC_METER None
      expose_as_is in
  let items := [ ("co", VStr "co sensor still in warm up phase; waiting time = 18 s") ] in
  (lookup (hass_data hass) DOMAIN = Ok [ ("entry1", 0) ] /\
   lookup [ ("entry1", 0) ] (entry_id example_entry) = Ok 0 /\
   dict_get (data (objects hass 0)) "Status" = Some (VDict items) /\
   warming_up items = Ok [ "co" ] /\
   In co SENSOR_TYPES /\
   In (key co) [ "co" ] /\
   dict_get (data (objects hass 0)) (key co) = None) /\
  In (AirQSensor_init hass 0 co) (created hass example_entry) /\
  native_value hass (AirQSensor_init hass 0 co) = Ok VNone.
Proof.
  intros surroundings hass co items.
  assert (In co SENSOR_TYPES) as Hcat.
  { unfold SENSOR_TYPES, co. simpl. tauto. }
  assert (In (key co) [ "co" ]) as Hkey by now left.
  split; [repeat split; assumption|].
  destruct (@warming_up_sensor_is_created example_const surroundings hass example_entry
              [ ("entry1", 0) ] 0 co items [ "co" ] eq_refl eq_refl eq_refl eq_refl
              Hcat Hkey) as [Hcreated Hread].
  split; [exact Hcreated|].
  apply Hread; [discriminate|discriminate|reflexivity].
Defined.

End SensorBehaviourRuns.
